(** * doughmination.win backend: user store, connection registry, front-switch handlers

    A shallow embedding of [backend/users.py] and of the parts of
    [backend/main.py] that deal with the WebSocket registry
    ([ConnectionManager]) and with the front-switch / status endpoints,
    together with the properties the specification states about them.

    Conventions of the embedding:
    - Python [str] is [string]; [str.lower] acts on the ASCII letters.
    - [Optional[T]] is [option T]; a Python exception is a constructor of
      [exn]; a function that may raise returns [Res].
    - The JSON file [dough-data/users.json] is the state of the user store:
      [None] when the file does not exist, [Some rows] otherwise.  File-system
      failures are outside of the model.
    - [uuid.uuid4()] and [bcrypt] are collaborators; they are passed in
      through the record [Oracle]. *)

From stdpp Require Import gmap strings list fin_maps.
From Stdlib Require Import Ascii.

Local Open Scope string_scope.
#[local] Set Warnings "-clear-no-such-hyp".

(** ** Results of fallible code *)

Inductive Res (E A : Type) : Type :=
| Ok (a : A)
| Raise (e : E).
Arguments Ok {E A} a.
Arguments Raise {E A} e.

(** The exception classes that the modelled code raises or catches.  An
    [HTTPException] is recorded with its status code; its detail text is not
    modelled.  [CancelledError] stands for the classes that derive from
    [BaseException] only, which [except Exception] does not catch. *)
Inductive exn : Type :=
| ValueError (msg : string)
| PermissionError (msg : string)
| RuntimeError (msg : string)
| WebSocketDisconnect
| AttributeError (msg : string)
| TypeError (msg : string)
| KeyError (key : string)
| OtherException (msg : string)
| HTTPException (status_code : nat)
| NameError (name : string)
| CancelledError.

(** [isinstance(e, Exception)] *)
Definition is_Exception (e : exn) : bool :=
  match e with
  | CancelledError => false
  | _ => true
  end.

(** [isinstance(e, HTTPException)] *)
Definition is_HTTPException (e : exn) : bool :=
  match e with
  | HTTPException _ => true
  | _ => false
  end.

(** ** A state-and-exception monad for the handlers

    [M W A] is a computation that runs on a world [W], may change it, and
    either returns an [A] or raises. *)

Definition M (W A : Type) : Type := W -> Res exn A * W.

#[export] Instance M_ret {W} : MRet (M W) :=
  fun A (a : A) w => (Ok a, w).

#[export] Instance M_bind {W} : MBind (M W) :=
  fun A B (k : A -> M W B) (c : M W A) w =>
    match c w with
    | (Ok a, w') => k a w'
    | (Raise e, w') => (Raise e, w')
    end.

Definition raise {W A} (e : exn) : M W A := fun w => (Raise e, w).

(** [try: body / except <catches> as e: handler e] *)
Definition try_except {W A} (body : M W A) (catches : exn -> bool)
    (handler : exn -> M W A) : M W A :=
  fun w =>
    match body w with
    | (Ok a, w') => (Ok a, w')
    | (Raise e, w') => if catches e then handler e w' else (Raise e, w')
    end.

(** Lifting of a fallible pure step. *)
Definition lift {W A} (r : Res exn A) : M W A := fun w => (r, w).

(** ** Python string primitives *)

Module Py.

Definition lower_ascii (c : ascii) : ascii :=
  let n := nat_of_ascii c in
  if (65 <=? n)%nat && (n <=? 90)%nat then ascii_of_nat (n + 32) else c.

(** [s.lower()], on the ASCII letters; Python also folds the cased letters
    outside of ASCII. *)
Fixpoint lower (s : string) : string :=
  match s with
  | EmptyString => EmptyString
  | String c s' => String (lower_ascii c) (lower s')
  end.

(** Truth value of an [Optional[str]]: [None] and the empty string are
    false. *)
Definition truthy (o : option string) : bool :=
  match o with
  | Some s => negb (String.eqb s EmptyString)
  | None => false
  end.

(** [x is not None] *)
Definition is_not_none {A} (o : option A) : bool :=
  match o with Some _ => true | None => false end.

(** [x if x is not None else d] *)
Definition or_else {A} (o : option A) (d : A) : A :=
  match o with Some x => x | None => d end.

End Py.

(** ** users.py *)

Module Users.

(** Modelled from the spec: the class [models.User] is declared in
    [models.py], which is not among the sources; its fields are those of the
    User record of the data model, as [users.py] reads and builds it. *)
Record User : Type := mkUser {
  u_id : string;
  u_username : string;
  u_password_hash : string;
  u_display_name : option string;
  u_is_admin : bool;
  u_is_owner : bool;
  u_is_pet : bool;
  u_avatar_url : option string
}.

(** Modelled from the spec: the class [models.UserCreate], declared in
    [models.py]; the fields are the ones [create_user] reads. *)
Record UserCreate : Type := mkUserCreate {
  uc_username : string;
  uc_password : string;
  uc_display_name : option string;
  uc_is_admin : bool;
  uc_is_pet : bool
}.

(** Modelled from the spec: the class [models.UserUpdate], declared in
    [models.py]; the fields are the ones [update_user] reads, each of them
    optional. *)
Record UserUpdate : Type := mkUserUpdate {
  up_display_name : option string;
  up_is_admin : option bool;
  up_is_pet : option bool;
  up_current_password : option string;
  up_new_password : option string;
  up_avatar_url : option string
}.

(** One object of the JSON array in [users.json].  Files written by an
    older version have no ["is_owner"] / ["is_pet"] keys. *)
Record Row : Type := mkRow {
  r_id : string;
  r_username : string;
  r_password_hash : string;
  r_display_name : option string;
  r_is_admin : bool;
  r_is_owner : option bool;
  r_is_pet : option bool;
  r_avatar_url : option string
}.

(** The persisted store: [None] while [USERS_FILE] does not exist. *)
Definition Store : Type := option (list Row).

(** The process environment ([os.getenv]). *)
Record Env : Type := mkEnv {
  ADMIN_USERNAME : option string;
  ADMIN_PASSWORD : option string;
  ADMIN_DISPLAY_NAME : option string
}.

(** Collaborators: [uuid.uuid4] and [passlib.hash.bcrypt]. *)
Record Oracle : Type := mkOracle {
  uuid4 : string;
  bcrypt_hash : string -> Res exn string;
  bcrypt_verify : string -> string -> Res exn bool
}.

Definition get_owner_username (env : Env) : string :=
  Py.or_else (ADMIN_USERNAME env) "admin".

Definition is_owner_username (env : Env) (username : string) : bool :=
  String.eqb (Py.lower username) (Py.lower (get_owner_username env)).

(** Body of the loop of [get_users]: migration defaults, then the owner
    flags are forced for the owner username, then the [User] is built from
    the dictionary. *)
Definition load_row (env : Env) (r : Row) : User :=
  let is_owner := Py.or_else (r_is_owner r) false in
  let is_pet := Py.or_else (r_is_pet r) false in
  let forced := is_owner_username env (r_username r) in
  {| u_id := r_id r;
     u_username := r_username r;
     u_password_hash := r_password_hash r;
     u_display_name := r_display_name r;
     u_is_admin := if forced then true else r_is_admin r;
     u_is_owner := if forced then true else is_owner;
     u_is_pet := is_pet;
     u_avatar_url := r_avatar_url r |}.

Definition get_users (env : Env) (st : Store) : list User :=
  match st with
  | None => []
  | Some rows => map (load_row env) rows
  end.

(** Body of the loop of [save_users]: the in-place mutation of one user. *)
Definition force_owner (env : Env) (u : User) : User :=
  if is_owner_username env (u_username u)
  then {| u_id := u_id u;
          u_username := u_username u;
          u_password_hash := u_password_hash u;
          u_display_name := u_display_name u;
          u_is_admin := true;
          u_is_owner := true;
          u_is_pet := u_is_pet u;
          u_avatar_url := u_avatar_url u |}
  else u.

(** [user.dict()] *)
Definition dump_user (u : User) : Row :=
  {| r_id := u_id u;
     r_username := u_username u;
     r_password_hash := u_password_hash u;
     r_display_name := u_display_name u;
     r_is_admin := u_is_admin u;
     r_is_owner := Some (u_is_owner u);
     r_is_pet := Some (u_is_pet u);
     r_avatar_url := u_avatar_url u |}.

(** [save_users] mutates the users it is given and rewrites the whole
    file.  It returns the mutated list (the objects are shared with the
    caller) and the new store. *)
Definition save_users (env : Env) (users : list User) : list User * Store :=
  let users' := map (force_owner env) users in
  (users', Some (map dump_user users')).

Definition get_user_by_username (env : Env) (username : string) (st : Store)
  : option User :=
  List.find (fun u => String.eqb (Py.lower (u_username u)) (Py.lower username))
       (get_users env st).

Definition get_user_by_id (env : Env) (user_id : string) (st : Store)
  : option User :=
  List.find (fun u => String.eqb (u_id u) user_id) (get_users env st).

Definition create_user (env : Env) (or : Oracle) (user_create : UserCreate)
    (requesting_user : option User) (st : Store) : Res exn User * Store :=
  let users := get_users env st in
  match get_user_by_username env (uc_username user_create) st with
  | Some _ =>
      (Raise (ValueError ("Username '" ++ uc_username user_create
                            ++ "' already exists")), st)
  | None =>
      if is_owner_username env (uc_username user_create)
         && Py.is_not_none requesting_user
      then (Raise (PermissionError
              "Cannot create user with owner username. Owner account must be created via initial setup."), st)
      else
        let '(is_owner, is_admin, is_pet) :=
          if is_owner_username env (uc_username user_create)
          then (true, true, false)
          else (false, uc_is_admin user_create, uc_is_pet user_create) in
        match bcrypt_hash or (uc_password user_create) with
        | Raise e => (Raise e, st)
        | Ok h =>
            let new_user :=
              {| u_id := uuid4 or;
                 u_username := uc_username user_create;
                 u_password_hash := h;
                 u_display_name := uc_display_name user_create;
                 u_is_admin := is_admin;
                 u_is_owner := is_owner;
                 u_is_pet := is_pet;
                 u_avatar_url := None |} in
            let '(_, st') := save_users env (users ++ [new_user]) in
            (Ok (force_owner env new_user), st')
        end
  end.

(** [for i, user in enumerate(users): if user.id == user_id: ...]: the
    index and the element at which the loop body runs. *)
Fixpoint locate (user_id : string) (users : list User) (i : nat)
  : option (nat * User) :=
  match users with
  | [] => None
  | user :: rest =>
      if String.eqb (u_id user) user_id then Some (i, user)
      else locate user_id rest (S i)
  end.

Definition update_user (env : Env) (or : Oracle) (user_id : string)
    (user_update : UserUpdate) (requesting_user : option User) (st : Store)
  : Res exn (option User) * Store :=
  let users := get_users env st in
  match locate user_id users 0 with
  | None => (Ok None, st)
  | Some (i, user) =>
      if u_is_owner user && bool_decide (up_is_admin user_update = Some false)
      then (Raise (PermissionError "Cannot remove admin privileges from owner"), st)
      else if match requesting_user with
              | Some ru =>
                  u_is_admin user && negb (String.eqb (u_id ru) (u_id user))
                  && negb (u_is_owner ru)
              | None => false
              end
      then (Raise (PermissionError "Only the owner can modify admin accounts"), st)
      else
        let password_hash : Res exn string :=
          if Py.truthy (up_current_password user_update)
             && Py.truthy (up_new_password user_update)
          then
            match bcrypt_verify or (Py.or_else (up_current_password user_update) EmptyString)
                                   (u_password_hash user) with
            | Raise e => Raise e
            | Ok false => Raise (ValueError "Current password is incorrect")
            | Ok true => bcrypt_hash or (Py.or_else (up_new_password user_update) EmptyString)
            end
          else Ok (u_password_hash user) in
        match password_hash with
        | Raise e => (Raise e, st)
        | Ok password_hash =>
            let new_is_owner := is_owner_username env (u_username user) in
            let new_is_admin :=
              if new_is_owner then true
              else Py.or_else (up_is_admin user_update) (u_is_admin user) in
            let new_is_pet := Py.or_else (up_is_pet user_update) (u_is_pet user) in
            let updated_user :=
              {| u_id := u_id user;
                 u_username := u_username user;
                 u_password_hash := password_hash;
                 u_display_name :=
                   match up_display_name user_update with
                   | Some d => Some d
                   | None => u_display_name user
                   end;
                 u_is_admin := new_is_admin;
                 u_is_owner := new_is_owner;
                 u_is_pet := new_is_pet;
                 u_avatar_url :=
                   match up_avatar_url user_update with
                   | Some a => Some a
                   | None => u_avatar_url user
                   end |} in
            let '(_, st') := save_users env (<[i := updated_user]> users) in
            (Ok (Some (force_owner env updated_user)), st')
        end
  end.

Definition delete_user (env : Env) (user_id : string)
    (requesting_user : option User) (st : Store) : Res exn bool * Store :=
  let users := get_users env st in
  match List.find (fun u => String.eqb (u_id u) user_id) users with
  | None => (Ok false, st)
  | Some user_to_delete =>
      if u_is_owner user_to_delete
      then (Raise (PermissionError "Cannot delete the owner account"), st)
      else if match requesting_user with
              | Some ru => u_is_admin user_to_delete && negb (u_is_owner ru)
              | None => false
              end
      then (Raise (PermissionError "Only the owner can delete admin accounts"), st)
      else
        let original_count := length users in
        let users' :=
          List.filter (fun u => negb (String.eqb (u_id u) user_id)) users in
        if (length users' <? original_count)%nat
        then let '(_, st') := save_users env users' in (Ok true, st')
        else (Ok false, st)
  end.

(** The digits [0] to [9]; the class [\d] of a Python pattern also takes the
    decimal digits of other scripts. *)
Definition is_digit (c : ascii) : bool :=
  let n := nat_of_ascii c in (48 <=? n)%nat && (n <=? 57)%nat.

Fixpoint skip_digits (s : string) : string :=
  match s with
  | String c s' => if is_digit c then skip_digits s' else s
  | EmptyString => s
  end.

(** [re.match(r'^\$2[aby]\$\d+\$.+', s)]: the prefix [$2a$], [$2b$] or
    [$2y$], one or more digits, a dollar sign, and at least one more
    character that is not a line feed. *)
Definition looks_like_bcrypt (s : string) : bool :=
  match s with
  | String "$" (String "2" (String v (String "$" (String d rest)))) =>
      (Ascii.eqb v "a" || Ascii.eqb v "b" || Ascii.eqb v "y")
      && is_digit d
      && match skip_digits rest with
         | String "$" (String c _) => negb (Ascii.eqb c "010")
         | _ => false
         end
  | _ => false
  end.

(** [initialize_admin_user]: the bootstrap.  It acts on an empty store only,
    and it passes no actor to [create_user]. *)
Definition initialize_admin_user (env : Env) (or : Oracle) (st : Store)
  : Res exn unit * Store :=
  match get_users env st with
  | _ :: _ => (Ok tt, st)
  | [] =>
      let admin_username := Py.or_else (ADMIN_USERNAME env) "admin" in
      let admin_password_or_hash :=
        if Py.truthy (ADMIN_PASSWORD env)
        then Py.or_else (ADMIN_PASSWORD env) EmptyString
        else "admin" in
      let admin_display_name :=
        Py.or_else (ADMIN_DISPLAY_NAME env) "Administrator" in
      if looks_like_bcrypt admin_password_or_hash
      then
        let new_user :=
          {| u_id := uuid4 or;
             u_username := admin_username;
             u_password_hash := admin_password_or_hash;
             u_display_name := Some admin_display_name;
             u_is_admin := true;
             u_is_owner := true;
             u_is_pet := false;
             u_avatar_url := None |} in
        let '(_, st') := save_users env ([] ++ [new_user]) in
        (Ok tt, st')
      else
        match create_user env or
                {| uc_username := admin_username;
                   uc_password := admin_password_or_hash;
                   uc_display_name := Some admin_display_name;
                   uc_is_admin := true;
                   uc_is_pet := false |}
                None st with
        | (Ok _, st') => (Ok tt, st')
        | (Raise e, st') =>
            if is_Exception e then (Ok tt, st') else (Raise e, st')
        end
  end.

End Users.

(** ** main.py: [ConnectionManager] *)

Module Registry.

(** A [WebSocket] object, by identity. *)
Definition WebSocket : Type := nat.

(** What [send_text] does on a connection: it delivers, or it raises. *)
Inductive Transport : Type :=
| Open
| Failing (e : exn).

(** The state of one [ConnectionManager]: [active_connections] and the
    [WeakSet] that [connect] fills. *)
Record ConnectionManager : Type := mkManager {
  active_connections : gmap string (gset WebSocket);
  weak_connections : gset WebSocket
}.

(** The peers: how each transport behaves, and the text frames each
    connection has been sent so far, oldest first. *)
Record Net : Type := mkNet {
  transport : WebSocket -> Transport;
  inbox : gmap WebSocket (list string)
}.

Definition frames (net : Net) (ws : WebSocket) : list string :=
  default [] (inbox net !! ws).

(** Does [send_text] raise on this connection? *)
Definition failing (net : Net) (ws : WebSocket) : bool :=
  match transport net ws with
  | Open => false
  | Failing _ => true
  end.

(** [ConnectionManager()] *)
Definition init : ConnectionManager :=
  {| active_connections := {[ "all" := ∅; "authenticated" := ∅ ]};
     weak_connections := ∅ |}.

(** [self.active_connections[key]] *)
Definition getitem (self : ConnectionManager) (key : string)
  : Res exn (gset WebSocket) :=
  match active_connections self !! key with
  | Some s => Ok s
  | None => Raise (KeyError key)
  end.

(** [await websocket.send_text(message)] *)
Definition send_text (ws : WebSocket) (message : string) (net : Net)
  : Res exn unit * Net :=
  match transport net ws with
  | Open =>
      (Ok tt, {| transport := transport net;
                 inbox := <[ ws := (frames net ws ++ [message])%list ]> (inbox net) |})
  | Failing e => (Raise e, net)
  end.

(** [connect], after [websocket.accept()]: the group must exist. *)
Definition connect (websocket : WebSocket) (group : string)
    (self : ConnectionManager) : Res exn unit * ConnectionManager :=
  match getitem self group with
  | Raise e => (Raise e, self)
  | Ok s =>
      (Ok tt,
       {| active_connections :=
            <[ group := s ∪ {[ websocket ]} ]> (active_connections self);
          weak_connections := weak_connections self ∪ {[ websocket ]} |})
  end.

(** [disconnect]: the connection is discarded from every group; the
    [group] argument is not used.  The closing [print] reads
    [self.active_connections['all']]. *)
Definition disconnect (websocket : WebSocket) (group : string)
    (self : ConnectionManager) : Res exn unit * ConnectionManager :=
  let self' :=
    {| active_connections :=
         (fun group_set => group_set ∖ {[ websocket ]})
           <$> active_connections self;
       weak_connections := weak_connections self |} in
  match getitem self' "all" with
  | Raise e => (Raise e, self')
  | Ok _ => (Ok tt, self')
  end.

(** The delivery loop of [broadcast].  Every [except] clause ends the same
    way: the connection is added to [disconnected].  An exception that is
    not an [Exception] leaves the loop. *)
Fixpoint deliver (message : string) (connections : list WebSocket)
    (disconnected : gset WebSocket) (net : Net)
  : Res exn (gset WebSocket) * Net :=
  match connections with
  | [] => (Ok disconnected, net)
  | connection :: rest =>
      match send_text connection message net with
      | (Ok _, net') => deliver message rest disconnected net'
      | (Raise e, net') =>
          match e with
          | WebSocketDisconnect =>
              deliver message rest (disconnected ∪ {[ connection ]}) net'
          | RuntimeError _ =>
              deliver message rest (disconnected ∪ {[ connection ]}) net'
          | _ =>
              if is_Exception e
              then deliver message rest (disconnected ∪ {[ connection ]}) net'
              else (Raise e, net')
          end
      end
  end.

(** [for conn in disconnected: self.disconnect(conn, group)] *)
Fixpoint cleanup (disconnected : list WebSocket) (group : string)
    (self : ConnectionManager) : Res exn unit * ConnectionManager :=
  match disconnected with
  | [] => (Ok tt, self)
  | conn :: rest =>
      match disconnect conn group self with
      | (Ok _, self') => cleanup rest group self'
      | (Raise e, self') => (Raise e, self')
      end
  end.

(** [broadcast].  The snapshot [list(self.active_connections[group])] is
    taken in the order of [elements]; Python leaves the order of a set open.
    The run is taken as one step: no other task touches the registry while
    the messages go out. *)
Definition broadcast (message : string) (group : string)
    (self : ConnectionManager) (net : Net)
  : Res exn unit * ConnectionManager * Net :=
  match active_connections self !! group with
  | None => (Ok tt, self, net)
  | Some group_set =>
      let connections := elements group_set in
      match deliver message connections ∅ net with
      | (Raise e, net') => (Raise e, self, net')
      | (Ok disconnected, net') =>
          let '(r, self') := cleanup (elements disconnected) group self in
          (r, self', net')
      end
  end.

(** The registry with the connections of [dead] discarded from every
    group: what a run of [disconnect] over [dead] leaves. *)
Definition prune (dead : gset WebSocket) (self : ConnectionManager)
  : ConnectionManager :=
  {| active_connections :=
       (fun group_set => group_set ∖ dead) <$> active_connections self;
     weak_connections := weak_connections self |}.

(** Every registry that the code builds has the group "all"; [disconnect]
    relies on it. *)
Definition has_all (self : ConnectionManager) : Prop :=
  is_Some (active_connections self !! "all").

(** [send_personal_message] *)
Definition send_personal_message (message : string) (websocket : WebSocket)
    (self : ConnectionManager) (net : Net)
  : Res exn unit * ConnectionManager * Net :=
  match send_text websocket message net with
  | (Ok _, net') => (Ok tt, self, net')
  | (Raise e, net') =>
      if is_Exception e
      then let '(r, self') := disconnect websocket "all" self in (r, self', net')
      else (Raise e, self, net')
  end.

End Registry.

(** ** main.py: request handlers *)

Module Api.

Import Users.

#[local] Unset Elimination Schemes.
(** A decoded JSON value.  Numbers are integers here; floating point
    payloads are not modelled. *)
Inductive Json : Type :=
| JNull
| JBool (b : bool)
| JNum (n : Z)
| JStr (s : string)
| JList (items : list Json)
| JDict (items : list (string * Json)).
#[local] Set Elimination Schemes.

(** [bool(x)] *)
Definition truthy (x : Json) : bool :=
  match x with
  | JNull => false
  | JBool b => b
  | JNum n => negb (n =? 0)%Z
  | JStr s => negb (String.eqb s EmptyString)
  | JList items => match items with [] => false | _ => true end
  | JDict items => match items with [] => false | _ => true end
  end.

Fixpoint assoc (key : string) (items : list (string * Json)) : option Json :=
  match items with
  | [] => None
  | (k, v) :: rest => if String.eqb k key then Some v else assoc key rest
  end.

(** [x.get(key, default)]: only a [dict] has the method. *)
Definition dict_get (x : Json) (key : string) (default : Json)
  : Res exn Json :=
  match x with
  | JDict items => Ok (Py.or_else (assoc key items) default)
  | _ => Raise (AttributeError "get")
  end.

(** [len(x)].  A string is counted in bytes, which is the number of its
    characters as long as the text is ASCII. *)
Definition len (x : Json) : Res exn nat :=
  match x with
  | JStr s => Ok (String.length s)
  | JList items => Ok (List.length items)
  | JDict items => Ok (List.length items)
  | _ => Raise (TypeError "len")
  end.

(** One call of the broadcaster: the event type, the group it goes to and
    the data it carries.  The timestamp is left out. *)
Record Event : Type := mkEvent {
  ev_type : string;
  ev_group : string;
  ev_data : Json
}.

(** Modelled from the spec: the class [models.MentalState], declared in
    [models.py]: a level, a time of update (kept here in ISO format) and
    optional notes. *)
Record MentalState : Type := mkMentalState {
  ms_level : string;
  ms_updated_at : string;
  ms_notes : option string
}.

(** Modelled from the spec: the class [models.UserResponse], declared in
    [models.py]; the fields are the ones the endpoints fill in. *)
Record UserResponse : Type := mkUserResponse {
  resp_id : string;
  resp_username : string;
  resp_display_name : option string;
  resp_is_admin : bool;
  resp_avatar_url : option string
}.

Definition user_response (u : User) : UserResponse :=
  {| resp_id := u_id u;
     resp_username := u_username u;
     resp_display_name := u_display_name u;
     resp_is_admin := u_is_admin u;
     resp_avatar_url := u_avatar_url u |}.

(** *** User management endpoints

    [current_user] is what [Depends(get_current_user)] resolved to. *)

Definition add_user (env : Env) (or : Oracle) (user_create : UserCreate)
    (current_user : User) : M Store UserResponse :=
  if negb (u_is_admin current_user) then raise (HTTPException 403)
  else
    try_except
      (new_user ← create_user env or user_create None;
       mret (user_response new_user))
      is_Exception
      (fun e =>
         match e with
         | ValueError _ => raise (HTTPException 400)
         | _ => raise (HTTPException 500)
         end).

Definition remove_user (env : Env) (user_id : string) (current_user : User)
  : M Store Json :=
  if negb (u_is_admin current_user) then raise (HTTPException 403)
  else if String.eqb user_id (u_id current_user)
  then raise (HTTPException 400)
  else
    success ← delete_user env user_id None;
    if negb success then raise (HTTPException 404)
    else mret (JDict [("message", JStr "User deleted successfully")]).

Definition update_user_info (env : Env) (or : Oracle) (user_id : string)
    (user_update : UserUpdate) (current_user : User) : M Store UserResponse :=
  if negb (u_is_admin current_user)
     && negb (String.eqb (u_id current_user) user_id)
  then raise (HTTPException 403)
  else
    try_except
      (updated_user ← update_user env or user_id user_update None;
       match updated_user with
       | None => raise (HTTPException 404)
       | Some u => mret (user_response u)
       end)
      (fun e => match e with ValueError _ => true | _ => false end)
      (fun e => raise (HTTPException 400)).

(** *** Fronting and status endpoints *)

Section Handlers.

(** The state behind the collaborators that [main.py] imports: the
    PluralKit facade ([pluralkit]), the member status storage
    ([member_status]) and the mental state file. *)
Variable Ext : Type.
Variable set_front : list Json -> M Ext Json.
Variable get_fronters : M Ext Json.
Variable set_member_status : string -> Json -> Json -> M Ext Json.
Variable clear_member_status : string -> M Ext bool.
Variable write_mental_state : Json -> M Ext unit.

(** The world of a handler: the collaborators and the events that have
    been handed to a registry for broadcast, oldest first. *)
Record World : Type := mkWorld {
  ext : Ext;
  events : list Event
}.

Definition call {A} (c : M Ext A) : M World A :=
  fun w =>
    let '(r, x) := c (ext w) in
    (r, {| ext := x; events := events w |}).

(** [main.py] calls [broadcast_frontend_update], [broadcast_fronting_update]
    and [broadcast_mental_state_update], but the module binds none of these
    names: it holds no definition and no import of them.  Looking the name
    up raises [NameError] before any argument is used, and nothing reaches a
    registry. *)
Definition broadcast_frontend_update (update_type : string) (data : Json)
  : M World unit :=
  raise (NameError "broadcast_frontend_update").

Definition broadcast_fronting_update (fronters_data : Json) : M World unit :=
  raise (NameError "broadcast_fronting_update").

Definition broadcast_mental_state_update (state_data : Json) : M World unit :=
  raise (NameError "broadcast_mental_state_update").

(** [POST /api/switch]; [request_json] is [await request.json()]. *)
Definition switch_front (request_json : Res exn Json) (user : User)
  : M World Json :=
  try_except
    (body ← lift request_json;
     member_ids ← lift (dict_get body "members" (JList []));
     match member_ids with
     | JList ids =>
         call (set_front ids);;
         fronters_data ← call get_fronters;
         broadcast_fronting_update fronters_data;;
         mret (JDict [("status", JStr "success");
                      ("message", JStr "Front updated successfully")])
     | _ => raise (HTTPException 400)
     end)
    is_Exception
    (fun e => raise (HTTPException 500)).

(** [POST /api/switch_front] *)
Definition switch_single_front (request_json : Res exn Json) (user : User)
  : M World Json :=
  try_except
    (body ← lift request_json;
     member_id ← lift (dict_get body "member_id" JNull);
     if negb (truthy member_id) then raise (HTTPException 400)
     else
       result ← call (set_front [member_id]);
       (if truthy result || true
        then fronters_data ← call get_fronters;
             broadcast_fronting_update fronters_data
        else mret tt);;
       mret (JDict [("success", JBool true);
                    ("message", JStr "Front updated");
                    ("data", result)]))
    is_Exception
    (fun e =>
       if is_HTTPException e then raise e
       else raise (HTTPException 500)).

(** [POST /api/mental-state] *)
Definition update_mental_state (state : MentalState) (user : User)
  : M World Json :=
  if negb (u_is_admin user) then raise (HTTPException 403)
  else
    try_except
      (let state_data :=
         JDict [("level", JStr (ms_level state));
                ("updated_at", JStr (ms_updated_at state));
                ("notes", match ms_notes state with
                          | Some n => JStr n
                          | None => JNull
                          end)] in
       call (write_mental_state state_data);;
       broadcast_mental_state_update state_data;;
       mret (JDict [("success", JBool true);
                    ("message", JStr "Mental state updated")]))
      is_Exception
      (fun e => raise (HTTPException 500)).

(** [POST /api/members/{member_identifier}/status] *)
Definition set_member_status_endpoint (member_identifier : string)
    (status_data : list (string * Json)) (user : User) : M World Json :=
  if negb (u_is_admin user) then raise (HTTPException 403)
  else
    try_except
      (let status_text := Py.or_else (assoc "text" status_data) JNull in
       let emoji := Py.or_else (assoc "emoji" status_data) JNull in
       if negb (truthy status_text) then raise (HTTPException 400)
       else
         n ← lift (len status_text);
         if (100 <? n)%nat then raise (HTTPException 400)
         else
           status ← call (set_member_status member_identifier status_text emoji);
           mret (JDict [("success", JBool true);
                        ("message", JStr ("Status updated for " ++ member_identifier));
                        ("status", status)]))
      is_Exception
      (fun e =>
         if is_HTTPException e then raise e
         else raise (HTTPException 500)).

(** [DELETE /api/members/{member_identifier}/status] *)
Definition clear_member_status_endpoint (member_identifier : string)
    (user : User) : M World Json :=
  if negb (u_is_admin user) then raise (HTTPException 403)
  else
    try_except
      (success ← call (clear_member_status member_identifier);
       match success with
       | true =>
           mret (JDict [("success", JBool true);
                        ("message", JStr ("Status cleared for " ++ member_identifier))])
       | false =>
           mret (JDict [("success", JBool false);
                        ("message", JStr ("No status found for " ++ member_identifier))])
       end)
      is_Exception
      (fun e => raise (HTTPException 500)).

End Handlers.

Arguments ext {Ext} w.
Arguments events {Ext} w.
Arguments mkWorld {Ext} ext events.

End Api.

(** ** Predicates over the store, and sample data *)

Module Inv.

Import Users.

(** A persisted row carries the owner flags whenever its username is the
    owner's. *)
Definition row_ok (env : Env) (r : Row) : Prop :=
  is_owner_username env (r_username r) = true ->
  r_is_owner r = Some true /\ r_is_admin r = true.

Definition store_ok (env : Env) (st : Store) : Prop :=
  forall rows, st = Some rows -> Forall (row_ok env) rows.

Definition user_ok (env : Env) (u : User) : Prop :=
  is_owner_username env (u_username u) = true ->
  u_is_owner u = true /\ u_is_admin u = true.

(** No row other than the owner's says [is_owner]. *)
Definition only_owner_flagged (env : Env) (st : Store) : Prop :=
  forall rows r, st = Some rows -> r ∈ rows ->
    r_is_owner r = Some true -> is_owner_username env (r_username r) = true.

(** The rows of a store; an absent file has none. *)
Definition rows_of (st : Store) : list Row := default [] st.

End Inv.

Module Sample.

Import Users.

Definition env : Env :=
  {| ADMIN_USERNAME := Some "Admin";
     ADMIN_PASSWORD := Some "secret";
     ADMIN_DISPLAY_NAME := None |}.

(** A stand-in for bcrypt, good enough to run the model. *)
Definition oracle : Oracle :=
  {| uuid4 := "id-new";
     bcrypt_hash := fun p => Ok ("$2b$" ++ p);
     bcrypt_verify := fun p h => Ok (String.eqb ("$2b$" ++ p) h) |}.

Definition owner_row : Row :=
  {| r_id := "id-0"; r_username := "admin"; r_password_hash := "$2b$secret";
     r_display_name := Some "Administrator"; r_is_admin := true;
     r_is_owner := Some true; r_is_pet := Some false; r_avatar_url := None |}.

Definition alice_row : Row :=
  {| r_id := "id-1"; r_username := "alice"; r_password_hash := "$2b$a";
     r_display_name := None; r_is_admin := true;
     r_is_owner := Some false; r_is_pet := Some false; r_avatar_url := None |}.

Definition bob_row : Row :=
  {| r_id := "id-2"; r_username := "bob"; r_password_hash := "$2b$b";
     r_display_name := None; r_is_admin := true;
     r_is_owner := None; r_is_pet := None; r_avatar_url := None |}.

Definition store : Store := Some [owner_row; alice_row; bob_row].

Definition alice : User := load_row env alice_row.
Definition bob : User := load_row env bob_row.
Definition owner : User := load_row env owner_row.

(** A user object whose [is_owner] flag is set although the username is
    not the owner's. *)
Definition mallory : User :=
  {| u_id := "id-3"; u_username := "mallory"; u_password_hash := "$2b$m";
     u_display_name := None; u_is_admin := false; u_is_owner := true;
     u_is_pet := false; u_avatar_url := None |}.

Definition revoke_admin : UserUpdate :=
  {| up_display_name := None; up_is_admin := Some false; up_is_pet := None;
     up_current_password := None; up_new_password := None;
     up_avatar_url := None |}.

Definition create_owner : UserCreate :=
  {| uc_username := "ADMIN"; uc_password := "pw"; uc_display_name := None;
     uc_is_admin := false; uc_is_pet := true |}.

Definition create_alice : UserCreate :=
  {| uc_username := "Alice"; uc_password := "pw"; uc_display_name := None;
     uc_is_admin := false; uc_is_pet := false |}.

(** Three subscribers in "all"; the transport of the second is closed. *)
Definition manager : Registry.ConnectionManager :=
  {| Registry.active_connections :=
       {[ "all" := {[ 1; 2; 3 ]}; "authenticated" := {[ 2 ]} ]};
     Registry.weak_connections := {[ 1; 2; 3 ]} |}.

Definition net : Registry.Net :=
  {| Registry.transport :=
       fun ws => if Nat.eqb ws 2 then Registry.Failing WebSocketDisconnect
                 else Registry.Open;
     Registry.inbox := ∅ |}.

(** Stand-ins for the collaborators of the handlers.  The state is the
    list of member ids in front. *)
Definition set_front (ids : list Api.Json) : M (list Api.Json) Api.Json :=
  fun _ => (Ok Api.JNull, ids).

Definition get_fronters : M (list Api.Json) Api.Json :=
  fun front => (Ok (Api.JDict [("members", Api.JList front)]), front).

Definition set_member_status (member : string) (text emoji : Api.Json)
  : M (list Api.Json) Api.Json :=
  fun front => (Ok (Api.JDict [("text", text); ("emoji", emoji)]), front).

Definition clear_member_status (member : string) : M (list Api.Json) bool :=
  fun front => (Ok true, front).

Definition write_mental_state (state_data : Api.Json)
  : M (list Api.Json) unit :=
  fun front => (Ok tt, front).

Definition world : Api.World (list Api.Json) :=
  Api.mkWorld [Api.JStr "m0"] [].

Definition switch_request : Res exn Api.Json :=
  Ok (Api.JDict [("members", Api.JList [Api.JStr "m1"; Api.JStr "m2"])]).

Definition status_request : list (string * Api.Json) :=
  [("text", Api.JStr "resting")].

Definition mental_state : Api.MentalState :=
  {| Api.ms_level := "safe"; Api.ms_updated_at := "2025-01-01T00:00:00+00:00";
     Api.ms_notes := None |}.

End Sample.

(** ** users.py: credential check *)

Module UsersAuth.

Import Users.

(** [verify_user]: the record found under the username, when [bcrypt]
    accepts the password for its hash. *)
Definition verify_user (env : Env) (or : Oracle) (username password : string)
    (st : Store) : Res exn (option User) :=
  match get_user_by_username env username st with
  | None => Ok None
  | Some user =>
      match bcrypt_verify or password (u_password_hash user) with
      | Raise e => Raise e
      | Ok true => Ok (Some user)
      | Ok false => Ok None
      end
  end.

(** The usernames of a set of users, lower-cased: the key that
    [get_user_by_username] and the duplicate check of [create_user] compare. *)
Definition name_keys (users : list User) : list string :=
  map (fun u => Py.lower (u_username u)) users.

(** No two records have the same username up to case. *)
Definition unique_names (env : Env) (st : Store) : Prop :=
  NoDup (name_keys (get_users env st)).

End UsersAuth.

(** ** main.py: helpers of the member page and the avatar endpoint *)

Module Pages.

Import Api.

Definition upper_ascii (c : ascii) : ascii :=
  let n := nat_of_ascii c in
  if (97 <=? n)%nat && (n <=? 122)%nat then ascii_of_nat (n - 32) else c.

(** [s.upper()], on the ASCII letters. *)
Fixpoint upper (s : string) : string :=
  match s with
  | EmptyString => EmptyString
  | String c s' => String (upper_ascii c) (upper s')
  end.

(** [s.lstrip(c)] for a single character [c]. *)
Fixpoint lstrip (c : ascii) (s : string) : string :=
  match s with
  | String d s' => if Ascii.eqb d c then lstrip c s' else s
  | EmptyString => s
  end.

(** [ch in chars] *)
Fixpoint char_in (ch : ascii) (chars : string) : bool :=
  match chars with
  | EmptyString => false
  | String d rest => Ascii.eqb ch d || char_in ch rest
  end.

(** [all(p(ch) for ch in s)] *)
Fixpoint all_chars (p : ascii -> bool) (s : string) : bool :=
  match s with
  | EmptyString => true
  | String c s' => p c && all_chars p s'
  end.

Definition is_hex_char (ch : ascii) : bool :=
  char_in ch "0123456789abcdefABCDEF".

(** The default of the parameter [default] of [normalize_hex]. *)
Definition default_color : string := "#FF69B4".

(** [normalize_hex], the helper of [serve_member_page].  Its argument is
    whatever the member record holds under the key "color". *)
Definition normalize_hex (color : Json) (default : string) : string :=
  match color with
  | JStr color =>
      if String.eqb color EmptyString then default
      else
        let c := lstrip "#" color in
        if (String.length c =? 6)%nat && all_chars is_hex_char c
        then "#" ++ upper c
        else default
  | _ => default
  end.

(** [s.replace(c, by)] for a single character [c]. *)
Fixpoint replace_char (c : ascii) (by_ : string) (s : string) : string :=
  match s with
  | EmptyString => EmptyString
  | String d s' =>
      if Ascii.eqb d c then by_ ++ replace_char c by_ s'
      else String d (replace_char c by_ s')
  end.

(** [escape_html], the helper of [serve_member_page]. *)
Definition escape_html (text : string) : string :=
  if String.eqb text EmptyString then EmptyString
  else
    replace_char "'" "&#x27;"
      (replace_char "034" "&quot;"
         (replace_char ">" "&gt;"
            (replace_char "<" "&lt;"
               (replace_char "&" "&amp;" text)))).

(** The five replacements of [escape_html], in the order of the source. *)
Definition replace_all (text : string) : string :=
  replace_char "'" "&#x27;"
    (replace_char "034" "&quot;"
       (replace_char ">" "&gt;"
          (replace_char "<" "&lt;"
             (replace_char "&" "&amp;" text)))).

(** The entity that stands for one character in escaped text. *)
Definition entity (c : ascii) : string :=
  if Ascii.eqb c "&" then "&amp;"
  else if Ascii.eqb c "<" then "&lt;"
  else if Ascii.eqb c ">" then "&gt;"
  else if Ascii.eqb c "034" then "&quot;"
  else if Ascii.eqb c "'" then "&#x27;"
  else String c EmptyString.

(** Escaping in one pass, character by character. *)
Fixpoint escape_chars (text : string) : string :=
  match text with
  | EmptyString => EmptyString
  | String c rest => entity c ++ escape_chars rest
  end.

(** The characters that end an attribute value or open a tag. *)
Definition is_markup (c : ascii) : bool :=
  Ascii.eqb c "<" || Ascii.eqb c ">" || Ascii.eqb c "034" || Ascii.eqb c "'".

Definition is_upper_hex (ch : ascii) : bool :=
  char_in ch "0123456789ABCDEF".

(** A colour as the page prints it: [#] and six upper-case hex digits. *)
Definition is_color (s : string) : bool :=
  match s with
  | String "#" c => (String.length c =? 6)%nat && all_chars is_upper_hex c
  | _ => false
  end.

(** [os.path.basename] (POSIX): what follows the last slash. *)
Fixpoint basename (path : string) : string :=
  match path with
  | EmptyString => EmptyString
  | String c rest =>
      if char_in "/" rest then basename rest
      else if Ascii.eqb c "/" then rest
      else path
  end.

(** [s.endswith(suffix)] *)
Definition endswith (s suffix : string) : bool :=
  let n := String.length s in
  let k := String.length suffix in
  (k <=? n)%nat && String.eqb (String.substring (n - k) k s) suffix.

(** The choice of the media type in [get_avatar]. *)
Definition media_type_of (safe_filename : string) : string :=
  if endswith (Py.lower safe_filename) ".jpg"
     || endswith (Py.lower safe_filename) ".jpeg"
  then "image/jpeg"
  else if endswith (Py.lower safe_filename) ".png" then "image/png"
  else if endswith (Py.lower safe_filename) ".gif" then "image/gif"
  else "application/octet-stream".

(** [GET /avatars/{filename}].  [is_file name] tells whether
    [DATA_DIR / name] exists and is a regular file.  The answer is the name
    of the file that is served and its media type. *)
Definition get_avatar (is_file : string -> bool) (filename : string)
  : Res exn (string * string) :=
  let safe_filename := basename filename in
  if is_file safe_filename
  then Ok (safe_filename, media_type_of safe_filename)
  else Raise (HTTPException 404).

End Pages.

(** ** main.py: the WebSocket endpoint *)

Module Socket.

Import Registry Api.

(** What one turn of the loop of [websocket_endpoint] meets when it waits
    for the client, at most 60 seconds: a text frame, the timeout, or an
    exception of [receive_text].  [now] is what the clock shows if the turn
    asks for it. *)
Inductive Incoming : Type :=
| Received (data : string) (now : string)
| TimedOut (now : string)
| ReceiveFailed (e : exn).

(** How a run of the endpoint stands: it returned, it raised, or it waits
    for the client with nothing more to read. *)
Inductive Outcome : Type :=
| Returned
| Raised (e : exn)
| Waiting.

Definition frame (type : string) (now : string) (more : list (string * Json))
  : Json :=
  JDict ([("type", JStr type); ("timestamp", JStr now)] ++ more)%list.

Section Endpoint.

(** [json.dumps], as [send_json] uses it. *)
Variable dumps : Json -> string.

(** [await websocket.send_json(data)] *)
Definition send_json (ws : WebSocket) (data : Json) (net : Net)
  : Res exn unit * Net :=
  send_text ws (dumps data) net.

(** The [finally] clause, then the way the run ends. *)
Definition leave (ws : WebSocket) (how : Outcome) (manager : ConnectionManager)
    (net : Net) : Outcome * ConnectionManager * Net :=
  match disconnect ws "all" manager with
  | (Ok _, manager') => (how, manager', net)
  | (Raise e, manager') => (Raised e, manager', net)
  end.

(** What follows a [send] inside the loop: the loop goes on, or the
    exception is one the [except] clauses of the loop answer with [break],
    or it is none of them and leaves through [finally]. *)
Definition after_send (ws : WebSocket) (sent : Res exn unit * Net)
    (manager : ConnectionManager)
    (go_on : Net -> Outcome * ConnectionManager * Net)
  : Outcome * ConnectionManager * Net :=
  match sent with
  | (Ok _, net') => go_on net'
  | (Raise e, net') =>
      if is_Exception e then leave ws Returned manager net'
      else leave ws (Raised e) manager net'
  end.

(** The [while True] loop, one turn for each thing that comes in. *)
Fixpoint serve (ws : WebSocket) (incoming : list Incoming)
    (manager : ConnectionManager) (net : Net)
  : Outcome * ConnectionManager * Net :=
  match incoming with
  | [] => (Waiting, manager, net)
  | Received data now :: rest =>
      if String.eqb data "ping"
      then after_send ws (send_text ws "pong" net) manager
             (serve ws rest manager)
      else if String.eqb data "subscribe"
      then after_send ws (send_json ws (frame "subscribed" now []) net) manager
             (serve ws rest manager)
      else serve ws rest manager net
  | TimedOut now :: rest =>
      after_send ws (send_json ws (frame "keepalive" now []) net) manager
        (serve ws rest manager)
  | ReceiveFailed e :: rest =>
      if is_Exception e then leave ws Returned manager net
      else leave ws (Raised e) manager net
  end.

(** [websocket_endpoint].  [accept] is how [websocket.accept()] ends, [now]
    the clock at the confirmation.  The registry is the one the function
    creates for itself. *)
Definition websocket_endpoint (ws : WebSocket) (accept : Res exn unit)
    (now : string) (incoming : list Incoming) (net : Net)
  : Outcome * ConnectionManager * Net :=
  let manager := init in
  match accept with
  | Raise e => (Raised e, manager, net)
  | Ok _ =>
      match connect ws "all" manager with
      | (Raise e, manager') => (Raised e, manager', net)
      | (Ok _, manager') =>
          match send_json ws
                  (frame "connection_established" now
                     [("message", JStr "WebSocket connected successfully")])
                  net with
          | (Raise e, net') =>
              if is_Exception e
              then match disconnect ws "all" manager' with
                   | (Ok _, manager'') => (Returned, manager'', net')
                   | (Raise e', manager'') => (Raised e', manager'', net')
                   end
              else (Raised e, manager', net')
          | (Ok _, net') => serve ws incoming manager' net'
          end
      end
  end.

(** The frames the endpoint answers one incoming item with, on a transport
    that delivers. *)
Definition reply (i : Incoming) : list string :=
  match i with
  | Received data now =>
      if String.eqb data "ping" then ["pong"]
      else if String.eqb data "subscribe"
      then [dumps (frame "subscribed" now [])]
      else []
  | TimedOut now => [dumps (frame "keepalive" now [])]
  | ReceiveFailed _ => []
  end.

End Endpoint.

(** Is the connection in some group of the registry? *)
Definition registered (ws : WebSocket) (manager : ConnectionManager) : Prop :=
  exists group group_set,
    active_connections manager !! group = Some group_set /\ ws ∈ group_set.

Definition is_receive_failure (i : Incoming) : bool :=
  match i with
  | ReceiveFailed _ => true
  | _ => false
  end.

(** What comes in before the first failure of [receive_text]. *)
Fixpoint answered (incoming : list Incoming) : list Incoming :=
  match incoming with
  | [] => []
  | ReceiveFailed _ :: _ => []
  | i :: rest => i :: answered rest
  end.

(** How the loop ends when every send delivers: it waits as long as nothing
    fails, and the first failure of [receive_text] ends it. *)
Fixpoint ending (incoming : list Incoming) : Outcome :=
  match incoming with
  | [] => Waiting
  | ReceiveFailed e :: _ => if is_Exception e then Returned else Raised e
  | _ :: rest => ending rest
  end.

(** The registry right after [connect]: the connection in "all" and in the
    weak set, nothing else. *)
Definition connected (ws : WebSocket) : ConnectionManager :=
  {| active_connections :=
       <[ "all" := ∅ ∪ {[ ws ]} ]> (active_connections init);
     weak_connections := weak_connections init ∪ {[ ws ]} |}.

End Socket.

(** ** main.py: the member detail endpoint *)

Module Members.

Import Api.

(** [x[key]] for a string key: only a [dict] can answer. *)
Definition subscript (x : Json) (key : string) : Res exn Json :=
  match x with
  | JDict items =>
      match assoc key items with
      | Some v => Ok v
      | None => Raise (KeyError key)
      end
  | _ => Raise (TypeError "subscript")
  end.

(** [x == s] for a string [s] *)
Definition eq_str (x : Json) (s : string) : bool :=
  match x with
  | JStr t => String.eqb t s
  | _ => false
  end.

(** [x.lower()]: only a [str] has the method. *)
Definition lower_of (x : Json) : Res exn string :=
  match x with
  | JStr t => Ok (Py.lower t)
  | _ => Raise (AttributeError "lower")
  end.

(** [xs[0]] *)
Definition first (xs : list Json) : Res exn Json :=
  match xs with
  | x :: _ => Ok x
  | [] => Raise (OtherException "IndexError")
  end.

Section Detail.

(** The collaborators: [pluralkit.get_members], [tags.enrich_members_with_tags]
    and [member_status.enrich_members_with_status]. *)
Variable Ext : Type.
Variable get_members : M Ext (list Json).
Variable enrich_members_with_tags : list Json -> M Ext (list Json).
Variable enrich_members_with_status : list Json -> M Ext (list Json).

(** The body of the loop of [member_detail] once the member is found. *)
Definition enriched (member : Json) : M Ext Json :=
  with_tags ← enrich_members_with_tags [member];
  member_with_tags ← lift (first with_tags);
  with_status ← enrich_members_with_status [member_with_tags];
  lift (first with_status).

(** The loop of [member_detail] and the [raise] that follows it. *)
Fixpoint scan (member_id : string) (members : list Json) : M Ext Json :=
  match members with
  | [] => raise (HTTPException 404)
  | member :: rest =>
      id_value ← lift (subscript member "id");
      if eq_str id_value member_id then enriched member
      else
        name_value ← lift (subscript member "name");
        name ← lift (lower_of name_value);
        if String.eqb name (Py.lower member_id) then enriched member
        else scan member_id rest
  end.

(** [GET /api/member/{member_id}] *)
Definition member_detail (member_id : string) : M Ext Json :=
  try_except
    (members ← get_members;
     scan member_id members)
    is_Exception
    (fun e => raise (HTTPException 500)).

End Detail.

(** A member record as the loop needs it: a dictionary with an "id" and a
    string under "name". *)
Definition well_formed (member : Json) : Prop :=
  exists id_value name,
    subscript member "id" = Ok id_value
    /\ subscript member "name" = Ok (JStr name).

(** Does the record answer to this id or, case-insensitively, this name? *)
Definition answers_to (member_id : string) (member : Json) : Prop :=
  exists id_value name,
    subscript member "id" = Ok id_value
    /\ subscript member "name" = Ok (JStr name)
    /\ (eq_str id_value member_id = true
        \/ Py.lower name = Py.lower member_id).

End Members.

(** ** More sample data *)

Module SampleMore.

Import Users.

Definition carol_row : Row :=
  {| r_id := "id-4"; r_username := "carol"; r_password_hash := "$2b$c";
     r_display_name := None; r_is_admin := false;
     r_is_owner := Some false; r_is_pet := Some false; r_avatar_url := None |}.

Definition carol : User := load_row Sample.env carol_row.

Definition store : Store :=
  Some [Sample.owner_row; Sample.alice_row; Sample.bob_row; carol_row].

Definition create_dave : UserCreate :=
  {| uc_username := "Dave"; uc_password := "pw"; uc_display_name := None;
     uc_is_admin := false; uc_is_pet := false |}.

Definition promote : UserUpdate :=
  {| up_display_name := None; up_is_admin := Some true; up_is_pet := None;
     up_current_password := None; up_new_password := None;
     up_avatar_url := None |}.

Definition new_password_only : UserUpdate :=
  {| up_display_name := None; up_is_admin := None; up_is_pet := None;
     up_current_password := None; up_new_password := Some "next";
     up_avatar_url := None |}.

Definition wrong_password : UserUpdate :=
  {| up_display_name := None; up_is_admin := None; up_is_pet := None;
     up_current_password := Some "guess"; up_new_password := Some "next";
     up_avatar_url := None |}.

Definition env_hashed : Env :=
  {| ADMIN_USERNAME := None;
     ADMIN_PASSWORD := Some "$2b$12$abcdefghijklmnopqrstuv";
     ADMIN_DISPLAY_NAME := None |}.

Definition members : list Api.Json :=
  [Api.JDict [("id", Api.JStr "abcde"); ("name", Api.JStr "Luna")];
   Api.JDict [("id", Api.JStr "fghij"); ("name", Api.JStr "Sol")]].

Definition get_members : M unit (list Api.Json) :=
  fun x => (Ok members, x).

Definition enrich (ms : list Api.Json) : M unit (list Api.Json) :=
  fun x => (Ok ms, x).

(** A transport that delivers to every connection. *)
Definition open_net : Registry.Net :=
  {| Registry.transport := fun _ => Registry.Open; Registry.inbox := ∅ |}.

(** A transport on which the task is cancelled while it sends to the
    third connection. *)
Definition cancelled_net : Registry.Net :=
  {| Registry.transport :=
       fun ws => if Nat.eqb ws 3 then Registry.Failing CancelledError
                 else if Nat.eqb ws 2 then Registry.Failing WebSocketDisconnect
                 else Registry.Open;
     Registry.inbox := ∅ |}.

Definition dumps (data : Api.Json) : string :=
  match data with
  | Api.JDict (("type", Api.JStr t) :: _) => "{" ++ t ++ "}"
  | _ => "{}"
  end.

End SampleMore.

(** * Properties of the user store *)

Module UsersFacts.

Import Users Inv.

Lemma force_owner_username env u :
  u_username (force_owner env u) = u_username u.
Proof. unfold force_owner. by destruct (is_owner_username env _). Qed.

Lemma force_owner_id env u : u_id (force_owner env u) = u_id u.
Proof. unfold force_owner. by destruct (is_owner_username env _). Qed.

Lemma force_owner_ok env u : user_ok env (force_owner env u).
Proof.
  unfold user_ok. rewrite force_owner_username. intros H.
  unfold force_owner. by rewrite H.
Qed.

Lemma force_owner_other env u :
  is_owner_username env (u_username u) = false -> force_owner env u = u.
Proof. intros H. unfold force_owner. by rewrite H. Qed.

Lemma load_row_ok env r : user_ok env (load_row env r).
Proof. unfold user_ok, load_row. simpl. by intros ->. Qed.

Lemma force_owner_fixed env u : user_ok env u -> force_owner env u = u.
Proof.
  unfold user_ok, force_owner. intros H.
  destruct (is_owner_username env (u_username u)); [|done].
  destruct H as [Ho Ha]; [done|]. destruct u; simpl in *. by subst.
Qed.

Lemma dump_user_ok env u : user_ok env u -> row_ok env (dump_user u).
Proof. unfold user_ok, row_ok. simpl. intros H Hn. destruct (H Hn). by split; f_equal. Qed.

Lemma save_users_store env users :
  (save_users env users).2 = Some (map dump_user (map (force_owner env) users)).
Proof. reflexivity. Qed.

Lemma save_users_ok env users : store_ok env (save_users env users).2.
Proof.
  intros rows [= <-]. apply Forall_forall. intros r Hr.
  apply list_elem_of_fmap in Hr as (u' & -> & Hu').
  apply list_elem_of_fmap in Hu' as (u & -> & _).
  apply dump_user_ok, force_owner_ok.
Qed.

Lemma get_users_ok env st : Forall (user_ok env) (get_users env st).
Proof.
  destruct st as [rows|]; simpl; [|constructor].
  apply Forall_forall. intros u Hu.
  apply list_elem_of_fmap in Hu as (r & -> & _). apply load_row_ok.
Qed.

(** The loop of [update_user] stops at the record [get_user_by_id] finds. *)
Lemma locate_Some user_id users i u :
  List.find (fun u => String.eqb (u_id u) user_id) users = Some u ->
  exists k, locate user_id users i = Some (i + k, u) /\ users !! k = Some u.
Proof.
  revert i. induction users as [|v users IH]; intros i; simpl; [done|].
  destruct (String.eqb (u_id v) user_id) eqn:E.
  - intros [= ->]. exists 0. by rewrite Nat.add_0_r.
  - intros H. destruct (IH (S i) H) as (k & Hk & Hl).
    exists (S k). split; [|done]. rewrite Hk. do 2 f_equal. lia.
Qed.

Lemma locate_None user_id users i :
  List.find (fun u => String.eqb (u_id u) user_id) users = None ->
  locate user_id users i = None.
Proof.
  revert i. induction users as [|v users IH]; intros i; simpl; [done|].
  destruct (String.eqb (u_id v) user_id); [done|]. apply IH.
Qed.

Lemma find_elem_of {A} (p : A -> bool) (l : list A) x :
  List.find p l = Some x -> x ∈ l /\ p x = true.
Proof.
  induction l as [|y l IH]; simpl; [done|].
  destruct (p y) eqn:E.
  - intros [= ->]. split; [left | done].
  - intros H. destruct (IH H). split; [by right | done].
Qed.

Lemma find_exists {A} (p : A -> bool) (l : list A) x :
  x ∈ l -> p x = true -> exists y, List.find p l = Some y.
Proof.
  induction 1 as [y l | y z l _ IH]; simpl; intros Hp.
  - rewrite Hp. eauto.
  - destruct (p z); eauto.
Qed.

Lemma filter_length_le {A} (p : A -> bool) (l : list A) :
  List.length (List.filter p l) <= List.length l.
Proof. induction l as [|y l IH]; simpl; [lia|]. destruct (p y); simpl; lia. Qed.

Lemma filter_length_lt {A} (p : A -> bool) (l : list A) x :
  x ∈ l -> p x = false -> List.length (List.filter p l) < List.length l.
Proof.
  induction 1 as [y l | y z l _ IH]; simpl; intros Hp.
  - rewrite Hp. pose proof (filter_length_le p l). lia.
  - specialize (IH Hp). destruct (p z); simpl; lia.
Qed.

Lemma map_force_owner_fixed env users :
  Forall (user_ok env) users -> map (force_owner env) users = users.
Proof.
  induction 1 as [|u users Hu _ IH]; simpl; [done|].
  by rewrite force_owner_fixed, IH.
Qed.

Lemma Forall_filter_bool {A} (P : A -> Prop) (p : A -> bool) (l : list A) :
  Forall P l -> Forall P (List.filter p l).
Proof.
  induction 1 as [|y l Hy _ IH]; simpl; [constructor|].
  destruct (p y); [by constructor | done].
Qed.

Lemma owner_record_is_owner env user_id st u :
  get_user_by_id env user_id st = Some u ->
  is_owner_username env (u_username u) = true ->
  u_is_owner u = true /\ u_is_admin u = true.
Proof.
  intros Hf Hn. apply find_elem_of in Hf as [Hin _].
  pose proof (get_users_ok env st) as Hall.
  rewrite Forall_forall in Hall. by apply Hall.
Qed.

Lemma delete_is_owner_denied env user_id requesting_user st u :
  get_user_by_id env user_id st = Some u ->
  u_is_owner u = true ->
  delete_user env user_id requesting_user st
  = (Raise (PermissionError "Cannot delete the owner account"), st).
Proof.
  intros Hfind Howner. unfold delete_user.
  unfold get_user_by_id in Hfind. by rewrite Hfind, Howner.
Qed.

(** The record stored under the owner's username always has a derived
    [is_owner], so it can never be deleted. *)
Lemma delete_owner_username_denied env user_id requesting_user st u :
  get_user_by_id env user_id st = Some u ->
  is_owner_username env (u_username u) = true ->
  delete_user env user_id requesting_user st
  = (Raise (PermissionError "Cannot delete the owner account"), st).
Proof.
  intros Hfind Hname. apply delete_is_owner_denied with u; [done|].
  by destruct (owner_record_is_owner _ _ _ _ Hfind Hname).
Qed.

(** What a successful [create_user] did. *)
Lemma create_user_Ok env or user_create requesting_user st u st' :
  create_user env or user_create requesting_user st = (Ok u, st') ->
  get_user_by_username env (uc_username user_create) st = None
  /\ (is_owner_username env (uc_username user_create) = true ->
      requesting_user = None)
  /\ u_username u = uc_username user_create
  /\ u_is_owner u = is_owner_username env (uc_username user_create)
  /\ user_ok env u
  /\ st' = Some (map dump_user
                   (map (force_owner env) (get_users env st ++ [u]))).
Proof.
  unfold create_user.
  destruct (get_user_by_username env _ st); [done|].
  destruct (is_owner_username env (uc_username user_create)) eqn:Ho; simpl.
  - destruct requesting_user; simpl; [done|].
    destruct (bcrypt_hash or _) as [h|]; [|done].
    match goal with |- context [force_owner env ?x] => set (nu := x) end.
    assert (Hfix : force_owner env nu = nu).
    { apply force_owner_fixed. by intros _. }
    rewrite Hfix. intros [= <- <-]. split_and!; try done;
      rewrite <- Hfix; apply force_owner_ok.
  - destruct (bcrypt_hash or _) as [h|]; [|done].
    match goal with |- context [force_owner env ?x] => set (nu := x) end.
    assert (Hfix : force_owner env nu = nu).
    { apply force_owner_other. exact Ho. }
    rewrite Hfix. intros [= <- <-]. split_and!; try done;
      rewrite <- Hfix; apply force_owner_ok.
Qed.

Lemma create_user_Raise env or user_create requesting_user st e st' :
  create_user env or user_create requesting_user st = (Raise e, st') ->
  st' = st.
Proof.
  unfold create_user.
  destruct (get_user_by_username env _ st); [by intros [= _ <-]|].
  destruct (is_owner_username env _ && Py.is_not_none _);
    [by intros [= _ <-]|].
  destruct (if is_owner_username env _ then _ else _) as [[? ?] ?].
  destruct (bcrypt_hash or _); [done | by intros [= _ <-]].
Qed.

(** What a successful [update_user] did. *)
Lemma update_user_Ok env or user_id user_update requesting_user st u' st' :
  update_user env or user_id user_update requesting_user st
  = (Ok (Some u'), st') ->
  exists i user,
    locate user_id (get_users env st) 0 = Some (i, user)
    /\ u_id u' = u_id user
    /\ u_username u' = u_username user
    /\ u_is_owner u' = is_owner_username env (u_username user)
    /\ user_ok env u'
    /\ st' = Some (map dump_user
                     (map (force_owner env) (<[i := u']> (get_users env st)))).
Proof.
  unfold update_user.
  destruct (locate user_id (get_users env st) 0) as [[i user]|]; [|done].
  destruct (u_is_owner user && _); [done|].
  destruct (match requesting_user with Some _ => _ | None => _ end); [done|].
  destruct (if Py.truthy _ && _ then _ else _) as [h|]; [|done].
  match goal with |- context [force_owner env ?x] => set (nu := x) end.
  assert (Hfix : force_owner env nu = nu).
  { apply force_owner_fixed. unfold user_ok, nu. simpl. by intros ->. }
  simpl. rewrite Hfix. intros [= <- <-]. exists i, user.
  split_and!; try done; rewrite <- Hfix; apply force_owner_ok.
Qed.

(** Every other outcome of [update_user] leaves the store alone. *)
Lemma update_user_unchanged env or user_id user_update requesting_user st r st' :
  update_user env or user_id user_update requesting_user st = (r, st') ->
  (forall u', r <> Ok (Some u')) ->
  st' = st.
Proof.
  unfold update_user.
  destruct (locate user_id (get_users env st) 0) as [[i user]|];
    [|by intros [= _ <-]].
  destruct (u_is_owner user && _); [by intros [= _ <-]|].
  destruct (match requesting_user with Some _ => _ | None => _ end);
    [by intros [= _ <-]|].
  destruct (if Py.truthy _ && _ then _ else _) as [h|]; [|by intros [= _ <-]].
  simpl. intros [= <- _] Hr. by destruct (Hr _ eq_refl).
Qed.

(** What a successful [delete_user] did. *)
Lemma delete_user_Ok_true env user_id requesting_user st st' :
  delete_user env user_id requesting_user st = (Ok true, st') ->
  st' = Some (map dump_user
                (List.filter (fun u => negb (String.eqb (u_id u) user_id))
                             (get_users env st))).
Proof.
  unfold delete_user.
  destruct (List.find _ (get_users env st)) as [u|]; [|done].
  destruct (u_is_owner u); [done|].
  destruct (match requesting_user with Some _ => _ | None => _ end); [done|].
  destruct (_ <? _)%nat; [|done]. simpl. intros [= <-].
  rewrite map_force_owner_fixed; [done|].
  apply Forall_filter_bool, get_users_ok.
Qed.

Lemma delete_user_unchanged env user_id requesting_user st r st' :
  delete_user env user_id requesting_user st = (r, st') ->
  r <> Ok true ->
  st' = st.
Proof.
  unfold delete_user.
  destruct (List.find _ (get_users env st)) as [u|]; [|by intros [= _ <-]].
  destruct (u_is_owner u); [by intros [= _ <-]|].
  destruct (match requesting_user with Some _ => _ | None => _ end);
    [by intros [= _ <-]|].
  destruct (_ <? _)%nat; [|by intros [= _ <-]].
  simpl. by intros [= <- _] Hr.
Qed.

Lemma store_ok_forced env users :
  store_ok env (Some (map dump_user (map (force_owner env) users))).
Proof. apply (save_users_ok env users). Qed.

End UsersFacts.

Module UsersClaims.

Import Users Inv UsersFacts.

(** C4. When the record that [user_id] designates has a derived
    [is_owner = true], an update whose patch sets [is_admin = false] raises
    [PermissionError], whoever asks, and the store is left as it was. *)
Theorem update_owner_admin_removal_denied
    env or user_id user_update requesting_user st u :
  get_user_by_id env user_id st = Some u ->
  u_is_owner u = true ->
  up_is_admin user_update = Some false ->
  update_user env or user_id user_update requesting_user st
  = (Raise (PermissionError "Cannot remove admin privileges from owner"), st).
Proof.
  intros Hfind Howner Hpatch. unfold update_user.
  destruct (locate_Some _ _ 0 _ Hfind) as (k & -> & _).
  by rewrite Howner, Hpatch.
Qed.

Lemma update_owner_admin_removal_denied_witness :
  get_user_by_id Sample.env "id-0" Sample.store = Some Sample.owner
  /\ u_is_owner Sample.owner = true
  /\ up_is_admin Sample.revoke_admin = Some false
  /\ update_user Sample.env Sample.oracle "id-0" Sample.revoke_admin
       (Some Sample.alice) Sample.store
     = (Raise (PermissionError "Cannot remove admin privileges from owner"),
        Sample.store).
Proof.
  split; [reflexivity|]. split; [reflexivity|]. split; [reflexivity|].
  apply (update_owner_admin_removal_denied Sample.env Sample.oracle "id-0"
           Sample.revoke_admin (Some Sample.alice) Sample.store Sample.owner);
    reflexivity.
Defined.

(** C5. [delete_user] on the id of a record whose derived [is_owner] is
    true (the owner's record) raises [PermissionError] for every actor and
    for no actor, and the store is left as it was. *)
Theorem delete_owner_denied env user_id requesting_user st u :
  get_user_by_id env user_id st = Some u ->
  u_is_owner u = true ->
  delete_user env user_id requesting_user st
  = (Raise (PermissionError "Cannot delete the owner account"), st).
Proof.
  intros Hfind Howner. by apply delete_is_owner_denied with u.
Qed.

Lemma delete_owner_denied_witness :
  get_user_by_id Sample.env "id-0" Sample.store = Some Sample.owner
  /\ u_is_owner Sample.owner = true
  /\ delete_user Sample.env "id-0" None Sample.store
     = (Raise (PermissionError "Cannot delete the owner account"), Sample.store)
  /\ delete_user Sample.env "id-0" (Some Sample.owner) Sample.store
     = (Raise (PermissionError "Cannot delete the owner account"), Sample.store).
Proof.
  split; [reflexivity|]. split; [reflexivity|].
  split;
    apply (delete_owner_denied Sample.env "id-0" _ Sample.store Sample.owner);
    reflexivity.
Defined.

(** C7. [create_user] with a username that some stored record already has,
    compared case-insensitively, raises [ValueError] (the conflict error)
    and leaves the store as it was: no record is added. *)
Theorem create_duplicate_rejected env or user_create requesting_user st u :
  u ∈ get_users env st ->
  Py.lower (u_username u) = Py.lower (uc_username user_create) ->
  create_user env or user_create requesting_user st
  = (Raise (ValueError ("Username '" ++ uc_username user_create
                          ++ "' already exists")), st).
Proof.
  intros Hin Hlow. unfold create_user, get_user_by_username.
  destruct (find_exists
              (fun v => String.eqb (Py.lower (u_username v))
                                   (Py.lower (uc_username user_create)))
              _ u Hin) as [v ->]; [|done].
  by apply String.eqb_eq.
Qed.

Lemma create_duplicate_rejected_witness :
  Sample.alice ∈ get_users Sample.env Sample.store
  /\ Py.lower (u_username Sample.alice)
     = Py.lower (uc_username Sample.create_alice)
  /\ create_user Sample.env Sample.oracle Sample.create_alice None Sample.store
     = (Raise (ValueError "Username 'Alice' already exists"), Sample.store).
Proof.
  assert (Hin : Sample.alice ∈ get_users Sample.env Sample.store).
  { right. left. }
  split; [exact Hin|]. split; [reflexivity|].
  apply (create_duplicate_rejected Sample.env Sample.oracle
           Sample.create_alice None Sample.store Sample.alice Hin).
  reflexivity.
Defined.

(** C2. Whatever users and flags come in, every record that [save_users]
    writes under the owner's username (compared case-insensitively) has
    [is_owner = true] and [is_admin = true].  [create_user], [update_user]
    and [delete_user] write through [save_users] only: when they succeed
    the store they leave satisfies the same, and so does the record they
    return; when they do not write, the store is the one they found.
    [get_users] forces the same flags on every record it loads. *)
Theorem owner_flags_persisted env :
  (forall users, store_ok env (save_users env users).2)
  /\ (forall or user_create requesting_user st,
        match create_user env or user_create requesting_user st with
        | (Ok u, st') => store_ok env st' /\ user_ok env u
        | (Raise _, st') => st' = st
        end)
  /\ (forall or user_id user_update requesting_user st,
        match update_user env or user_id user_update requesting_user st with
        | (Ok (Some u), st') => store_ok env st' /\ user_ok env u
        | (_, st') => st' = st
        end)
  /\ (forall user_id requesting_user st,
        match delete_user env user_id requesting_user st with
        | (Ok true, st') => store_ok env st'
        | (_, st') => st' = st
        end)
  /\ (forall st, Forall (user_ok env) (get_users env st)).
Proof.
  split; [apply save_users_ok|].
  split.
  { intros or uc ru st.
    destruct (create_user env or uc ru st) as [[u|e] st'] eqn:E.
    - destruct (create_user_Ok _ _ _ _ _ _ _ E) as (_ & _ & _ & _ & Hok & ->).
      split; [apply store_ok_forced | done].
    - by apply create_user_Raise in E. }
  split.
  { intros or uid up ru st.
    destruct (update_user env or uid up ru st) as [r st'] eqn:E.
    destruct r as [[u|]|e];
      try (apply update_user_unchanged in E; [done | by intros ?]).
    apply update_user_Ok in E as (i & user & _ & _ & _ & _ & Hok & ->).
    split; [apply store_ok_forced | done]. }
  split; [|apply get_users_ok].
  intros uid ru st.
  destruct (delete_user env uid ru st) as [r st'] eqn:E.
  destruct r as [[|]|e];
    try (by apply delete_user_unchanged in E).
  apply delete_user_Ok_true in E as ->.
  rewrite <- (map_force_owner_fixed env (List.filter _ _)) at 1;
    [apply store_ok_forced|].
  apply Forall_filter_bool, get_users_ok.
Qed.

(** C3, as stated, fails: loading and saving only ever set flags.  A store
    that holds a record with [is_owner = true] under a username that is not
    the owner's still holds it, flag set, after the next load and save. *)
Lemma save_keeps_stray_owner_flag :
  ~ only_owner_flagged Sample.env
      (save_users Sample.env
         (get_users Sample.env (Some [dump_user Sample.mallory]))).2.
Proof.
  intros H.
  specialize (H [dump_user Sample.mallory] (dump_user Sample.mallory)
                eq_refl ltac:(left) eq_refl).
  discriminate H.
Qed.

(** The same through a whole operation: creating another user rewrites the
    set, and the stray flag is written back. *)
Lemma create_keeps_stray_owner_flag :
  exists u,
    create_user Sample.env Sample.oracle Sample.create_alice None
      (Some [dump_user Sample.mallory])
    = (Ok u, Some [dump_user Sample.mallory; dump_user u])
    /\ r_is_owner (dump_user Sample.mallory) = Some true
    /\ is_owner_username Sample.env (u_username Sample.mallory) = false.
Proof. eexists. split_and!; reflexivity. Qed.

(** The bootstrap on an empty store: one record, the owner's, with both
    flags, and a credential that is the hash of the configured password. *)
Lemma bootstrap_creates_owner :
  initialize_admin_user Sample.env Sample.oracle None
  = (Ok tt,
     Some [ {| r_id := "id-new"; r_username := "Admin";
               r_password_hash := "$2b$secret";
               r_display_name := Some "Administrator";
               r_is_admin := true; r_is_owner := Some true;
               r_is_pet := Some false; r_avatar_url := None |} ]).
Proof. reflexivity. Qed.

(** C3, amended.  Every write re-asserts the owner flags for all records of
    the set: a record under the owner's username is written with
    [is_owner = is_admin = true] whatever its flags were (so an owner
    record whose flags were lost heals on the next save), and every other
    record is written exactly as it is.  No operation grants the flag: the
    record that [create_user] adds and the record that [update_user]
    rewrites have [is_owner] equal to the username test. *)
Theorem save_reasserts_owner_flags env :
  (forall users,
      store_ok env (save_users env users).2
      /\ Forall2 (fun u r =>
                    r_username r = u_username u
                    /\ if is_owner_username env (u_username u)
                       then r_is_owner r = Some true /\ r_is_admin r = true
                       else r = dump_user u)
                 users (rows_of (save_users env users).2))
  /\ (forall or user_create requesting_user st,
        match create_user env or user_create requesting_user st with
        | (Ok u, _) => u_is_owner u = is_owner_username env (u_username u)
        | (Raise _, _) => True
        end)
  /\ (forall or user_id user_update requesting_user st,
        match update_user env or user_id user_update requesting_user st with
        | (Ok (Some u), _) => u_is_owner u = is_owner_username env (u_username u)
        | (_, _) => True
        end).
Proof.
  split_and!.
  - intros users. split; [apply save_users_ok|].
    change (rows_of (save_users env users).2)
      with (map dump_user (map (force_owner env) users)).
    induction users as [|u users IH]; cbn [List.map]; constructor; [|exact IH].
    change (r_username (dump_user (force_owner env u)))
      with (u_username (force_owner env u)).
    rewrite force_owner_username. split; [done|].
    unfold force_owner. by destruct (is_owner_username env (u_username u)).
  - intros or uc ru st.
    destruct (create_user env or uc ru st) as [[u|e] st'] eqn:E; [|done].
    destruct (create_user_Ok _ _ _ _ _ _ _ E) as (_ & _ & Hn & Ho & _).
    by rewrite Hn.
  - intros or uid up ru st.
    destruct (update_user env or uid up ru st) as [[[u|]|e] st'] eqn:E;
      try done.
    apply update_user_Ok in E as (i & user & _ & _ & Hn & Ho & _).
    by rewrite Hn.
Qed.

(** C6, as stated, fails: the duplicate check comes first.  An
    authenticated request for the owner's username, made while the owner's
    record exists, is refused with the conflict error ([ValueError]), not
    with [PermissionError]. *)
Lemma create_owner_name_conflict_first :
  is_owner_username Sample.env (uc_username Sample.create_owner) = true
  /\ create_user Sample.env Sample.oracle Sample.create_owner
       (Some Sample.alice) Sample.store
     = (Raise (ValueError "Username 'ADMIN' already exists"), Sample.store)
  /\ ~ (exists msg,
          (create_user Sample.env Sample.oracle Sample.create_owner
             (Some Sample.alice) Sample.store).1
          = Raise (PermissionError msg)).
Proof.
  split; [reflexivity|]. split; [reflexivity|].
  intros [msg H]. discriminate H.
Qed.

(** C6, amended.  For the owner's username: [create_user] called with an
    actor always fails and leaves the store as it was, with [ValueError]
    when a record of that name (case-insensitively) exists and with
    [PermissionError] otherwise; a call that succeeds had no actor and
    stored the record with [is_owner = is_admin = true]; and with no
    actor, no record of that name and a password that hashes, the call
    succeeds. *)
Theorem create_owner_username_guard env or user_create st :
  is_owner_username env (uc_username user_create) = true ->
  (forall actor,
      create_user env or user_create (Some actor) st
      = (Raise (match get_user_by_username env (uc_username user_create) st with
                | Some _ =>
                    ValueError ("Username '" ++ uc_username user_create
                                  ++ "' already exists")
                | None =>
                    PermissionError
                      "Cannot create user with owner username. Owner account must be created via initial setup."
                end), st))
  /\ (forall requesting_user u st',
        create_user env or user_create requesting_user st = (Ok u, st') ->
        requesting_user = None
        /\ u_is_owner u = true /\ u_is_admin u = true
        /\ dump_user u ∈ rows_of st')
  /\ (forall h,
        get_user_by_username env (uc_username user_create) st = None ->
        bcrypt_hash or (uc_password user_create) = Ok h ->
        exists u st', create_user env or user_create None st = (Ok u, st')).
Proof.
  intros Hown. split_and!.
  - intros actor. unfold create_user.
    destruct (get_user_by_username env _ st); [done|].
    by rewrite Hown.
  - intros ru u st' E.
    destruct (create_user_Ok _ _ _ _ _ _ _ E) as (_ & Hru & Hn & Ho & Hok & ->).
    rewrite <- Hn in Hown. destruct (Hok Hown) as [Hio Hia].
    split_and!; [by apply Hru; rewrite <- Hn | done | done |].
    simpl. rewrite map_app, fmap_app. apply elem_of_app. right.
    simpl. rewrite force_owner_fixed; [left | done].
  - intros h Hnone Hh. unfold create_user.
    rewrite Hnone, Hown, Hh. simpl. eauto.
Qed.

Lemma create_owner_username_guard_witness :
  is_owner_username Sample.env (uc_username Sample.create_owner) = true
  /\ create_user Sample.env Sample.oracle Sample.create_owner
       (Some Sample.alice) (Some [Sample.alice_row])
     = (Raise (PermissionError
          "Cannot create user with owner username. Owner account must be created via initial setup."),
        Some [Sample.alice_row])
  /\ exists u st',
       create_user Sample.env Sample.oracle Sample.create_owner None None
       = (Ok u, st').
Proof.
  pose proof (create_owner_username_guard Sample.env Sample.oracle
                Sample.create_owner (Some [Sample.alice_row]) eq_refl)
    as (Hactor & _ & _).
  pose proof (create_owner_username_guard Sample.env Sample.oracle
                Sample.create_owner None eq_refl)
    as (_ & _ & Hboot).
  split; [reflexivity|].
  split; [exact (Hactor Sample.alice)|].
  exact (Hboot "$2b$pw" eq_refl eq_refl).
Defined.

(** With an actor, the rule "only the owner deletes admins" is evaluated:
    the contrast to C10. *)
Lemma delete_admin_by_non_owner_denied env user_id actor st u :
  get_user_by_id env user_id st = Some u ->
  u_is_admin u = true -> u_is_owner u = false ->
  u_is_owner actor = false ->
  delete_user env user_id (Some actor) st
  = (Raise (PermissionError "Only the owner can delete admin accounts"), st).
Proof.
  intros Hfind Hadm Hown Hact. unfold delete_user.
  unfold get_user_by_id in Hfind. by rewrite Hfind, Hown, Hadm, Hact.
Qed.

(** C10. When the record that [user_id] designates is an admin without
    the owner flag, [delete_user user_id None] evaluates no actor rule: it
    returns [True] and rewrites the store without any record of that id.
    The endpoints pass no actor: [remove_user], asked by any admin other
    than the target, ends in exactly that call, and [add_user] in
    [create_user user_create None]. *)
Theorem delete_without_actor env user_id st u :
  get_user_by_id env user_id st = Some u ->
  u_is_admin u = true ->
  u_is_owner u = false ->
  let st' :=
    Some (map dump_user
            (List.filter (fun v => negb (String.eqb (u_id v) user_id))
                         (get_users env st))) in
  delete_user env user_id None st = (Ok true, st')
  /\ (forall r, r ∈ rows_of st' -> r_id r <> user_id)
  /\ (forall current_user,
        u_is_admin current_user = true ->
        u_id current_user <> user_id ->
        Api.remove_user env user_id current_user st
        = (Ok (Api.JDict [("message", Api.JStr "User deleted successfully")]),
           st'))
  /\ (forall or user_create current_user,
        u_is_admin current_user = true ->
        Api.add_user env or user_create current_user st
        = match create_user env or user_create None st with
          | (Ok new_user, st1) => (Ok (Api.user_response new_user), st1)
          | (Raise (ValueError m), st1) => (Raise (HTTPException 400), st1)
          | (Raise e, st1) =>
              if is_Exception e then (Raise (HTTPException 500), st1)
              else (Raise e, st1)
          end).
Proof.
  intros Hfind Hadm Hown st'.
  assert (Hdel : delete_user env user_id None st = (Ok true, st')).
  { unfold delete_user. unfold get_user_by_id in Hfind.
    rewrite Hfind, Hown.
    apply find_elem_of in Hfind as [Hin Hid].
    assert (Hlt : List.length
                    (List.filter (fun v => negb (String.eqb (u_id v) user_id))
                                 (get_users env st))
                  < List.length (get_users env st)).
    { apply filter_length_lt with u; [done|]. simpl in Hid. by rewrite Hid. }
    apply Nat.ltb_lt in Hlt. rewrite Hlt. simpl.
    rewrite map_force_owner_fixed; [done|].
    apply Forall_filter_bool, get_users_ok. }
  split_and!; [exact Hdel | | |].
  - intros r Hr. unfold st', rows_of in Hr. simpl in Hr.
    apply list_elem_of_fmap in Hr as (v & -> & Hv).
    apply list_elem_of_In, filter_In in Hv as [_ Hv]. simpl.
    apply negb_true_iff, String.eqb_neq in Hv. exact Hv.
  - intros cur Hcur Hne. unfold Api.remove_user. rewrite Hcur. simpl.
    destruct (String.eqb user_id (u_id cur)) eqn:E.
    { apply String.eqb_eq in E. by subst. }
    unfold mbind, M_bind. by rewrite Hdel.
  - intros or uc cur Hcur. unfold Api.add_user. rewrite Hcur. simpl.
    unfold try_except, mbind, M_bind, mret, M_ret, raise.
    destruct (create_user env or uc None st) as [[nu|e] st1]; [done|].
    by destruct e.
Qed.

Lemma delete_without_actor_witness :
  get_user_by_id Sample.env "id-2" Sample.store = Some Sample.bob
  /\ u_is_admin Sample.bob = true
  /\ u_is_owner Sample.bob = false
  /\ delete_user Sample.env "id-2" None Sample.store
     = (Ok true,
        Some [dump_user Sample.owner; dump_user Sample.alice])
  /\ Api.remove_user Sample.env "id-2" Sample.alice Sample.store
     = (Ok (Api.JDict [("message", Api.JStr "User deleted successfully")]),
        Some [dump_user Sample.owner; dump_user Sample.alice]).
Proof.
  pose proof (delete_without_actor Sample.env "id-2" Sample.store Sample.bob
                eq_refl eq_refl eq_refl) as (Hdel & _ & Hrm & _).
  split; [reflexivity|]. split; [reflexivity|]. split; [reflexivity|].
  split; [exact Hdel|].
  apply (Hrm Sample.alice); [reflexivity | discriminate].
Defined.

(** The consequence for the owner guard of [create_user]: asked by an
    admin while no record carries the owner's username, [add_user] creates
    the owner's record. *)
Lemma add_user_creates_owner_record :
  is_owner_username Sample.env (uc_username Sample.create_owner) = true
  /\ exists resp new_row,
       Api.add_user Sample.env Sample.oracle Sample.create_owner Sample.alice
         (Some [Sample.alice_row])
       = (Ok resp, Some [dump_user Sample.alice; new_row])
       /\ r_is_owner new_row = Some true.
Proof. split; [reflexivity|]. do 2 eexists. split; reflexivity. Qed.

End UsersClaims.

(** * Properties of the connection registry *)

Module RegistryFacts.

Import Registry.

Lemma frames_send_open ws message net c :
  transport net ws = Open ->
  frames (send_text ws message net).2 c
  = if decide (c = ws) then (frames net ws ++ [message])%list else frames net c.
Proof.
  intros Hopen. unfold send_text. rewrite Hopen. unfold frames at 1. simpl.
  destruct (decide (c = ws)) as [->|Hne].
  - by rewrite lookup_insert_eq.
  - by rewrite lookup_insert_ne.
Qed.

(** One round of the delivery loop, for transports that fail with an
    [Exception]: the open connections of the snapshot get the message
    once, the others are collected. *)
Lemma deliver_spec message connections :
  NoDup connections ->
  forall disconnected net,
    (forall c e, c ∈ connections -> transport net c = Failing e ->
                 is_Exception e = true) ->
    exists net',
      deliver message connections disconnected net
      = (Ok (disconnected
               ∪ list_to_set (List.filter (failing net) connections)), net')
      /\ transport net' = transport net
      /\ forall c,
          frames net' c
          = if decide (c ∈ connections /\ failing net c = false)
            then (frames net c ++ [message])%list else frames net c.
Proof.
  intros Hnd. induction Hnd as [|ws rest Hnotin Hnd IH]; intros d net Hexc.
  - exists net. split_and!.
    + cbn [deliver List.filter list_to_set]. f_equal. f_equal.
      by rewrite (right_id_L ∅ (∪)).
    + done.
    + intros c. rewrite decide_False; [done|]. intros [Hc _]. inversion Hc.
  - cbn [deliver List.filter]. unfold failing at 1.
    destruct (transport net ws) as [|e] eqn:Htr.
    + (* delivered *)
      pose proof (frames_send_open ws message net) as Hfr.
      unfold send_text in Hfr |- *. rewrite Htr in Hfr |- *.
      set (net1 := {| transport := transport net; inbox := _ |}) in *.
      destruct (IH d net1) as (net' & Hrun & Htr' & Hfr').
      { intros c e' Hc. simpl. apply Hexc. by right. }
      exists net'. split_and!.
      * exact Hrun.
      * by rewrite Htr'.
      * intros c. rewrite Hfr'. unfold failing. cbn [transport net1 snd] in *.
        rewrite (Hfr c eq_refl).
        destruct (decide (c = ws)) as [->|Hne].
        -- rewrite decide_False by (intros [? _]; done).
           rewrite decide_True; [done|]. split; [left|]. by rewrite Htr.
        -- apply decide_ext. split; intros [Hc Hf]; split; try done.
           ++ by right.
           ++ by inversion Hc; subst.
    + (* raised *)
      assert (Hcatch : is_Exception e = true).
      { apply (Hexc ws e); [left | done]. }
      unfold send_text. rewrite Htr.
      destruct (IH (d ∪ {[ws]}) net) as (net' & Hrun & Htr' & Hfr').
      { intros c e' Hc. apply Hexc. by right. }
      exists net'. split_and!.
      * transitivity (deliver message rest (d ∪ {[ws]}) net).
        { by destruct e. }
        rewrite Hrun. f_equal. f_equal. cbn [list_to_set].
        by rewrite (assoc_L (∪)).
      * done.
      * intros c. rewrite Hfr'. apply decide_ext.
        split; intros [Hc Hf]; split; try done.
        -- by right.
        -- inversion Hc; subst; [|done]. unfold failing in Hf.
           by rewrite Htr in Hf.
Qed.

Lemma init_has_all : has_all init.
Proof. by eexists. Qed.

Lemma prune_has_all dead self : has_all self -> has_all (prune dead self).
Proof.
  unfold has_all, prune. simpl. rewrite lookup_fmap. intros [s ->]. by eexists.
Qed.

Lemma connect_has_all ws group self :
  has_all self -> has_all (connect ws group self).2.
Proof.
  unfold has_all, connect, getitem. intros Hall.
  destruct (active_connections self !! group) as [s|] eqn:E; simpl; [|done].
  destruct (decide (group = "all")) as [->|Hne].
  - rewrite lookup_insert_eq. by eexists.
  - by rewrite lookup_insert_ne.
Qed.

Lemma disconnect_spec ws group self :
  has_all self -> disconnect ws group self = (Ok tt, prune {[ws]} self).
Proof.
  intros [s Hs]. unfold disconnect, getitem. simpl.
  by rewrite lookup_fmap, Hs.
Qed.

Lemma prune_prune d1 d2 self :
  prune d2 (prune d1 self) = prune (d1 ∪ d2) self.
Proof.
  unfold prune. simpl. f_equal.
  rewrite <- map_fmap_compose. apply map_fmap_ext.
  intros g s _. simpl. set_solver.
Qed.

Lemma prune_empty self : prune ∅ self = self.
Proof.
  destruct self as [m w]. unfold prune. simpl. f_equal.
  rewrite <- (map_fmap_id m) at 2. apply map_fmap_ext.
  intros g s _. simpl. set_solver.
Qed.

Lemma cleanup_spec disconnected group self :
  has_all self ->
  cleanup disconnected group self
  = (Ok tt, prune (list_to_set disconnected) self).
Proof.
  revert self. induction disconnected as [|ws rest IH]; intros self Hall.
  - simpl. by rewrite prune_empty.
  - cbn [cleanup list_to_set]. rewrite disconnect_spec by done.
    rewrite IH by (by apply prune_has_all). by rewrite prune_prune.
Qed.

(** [broadcast] on a registered group whose transports fail with an
    [Exception] only. *)
Lemma broadcast_spec message group self net group_set :
  active_connections self !! group = Some group_set ->
  has_all self ->
  (forall c e, c ∈ group_set -> transport net c = Failing e ->
               is_Exception e = true) ->
  exists net',
    broadcast message group self net
    = (Ok tt,
       prune (filter (fun c => failing net c = true) group_set) self,
       net')
    /\ transport net' = transport net
    /\ forall c,
        frames net' c
        = if decide (c ∈ group_set /\ failing net c = false)
          then (frames net c ++ [message])%list else frames net c.
Proof.
  intros Hgroup Hall Hexc. unfold broadcast. rewrite Hgroup.
  destruct (deliver_spec message (elements group_set)
              (NoDup_elements group_set) ∅ net) as (net' & Hrun & Htr & Hfr).
  { intros c e Hc. apply Hexc. by apply elem_of_elements. }
  exists net'. rewrite Hrun. rewrite cleanup_spec by done.
  rewrite list_to_set_elements_L. split_and!.
  - do 3 f_equal. apply set_eq. intros c.
    rewrite elem_of_union, elem_of_list_to_set, elem_of_filter.
    rewrite list_elem_of_In, filter_In, <- list_elem_of_In, elem_of_elements.
    set_solver.
  - done.
  - intros c. rewrite Hfr. apply decide_ext.
    by rewrite elem_of_elements.
Qed.

End RegistryFacts.

Module RegistryClaims.

Import Registry RegistryFacts.

(** C9. [broadcast] to a group name that is not registered returns
    normally and does nothing: the registry, and with it the membership of
    every group, is unchanged, and no frame is sent. *)
Theorem broadcast_unknown_group message group self net :
  active_connections self !! group = None ->
  broadcast message group self net = (Ok tt, self, net).
Proof. intros Hnone. unfold broadcast. by rewrite Hnone. Qed.

Lemma broadcast_unknown_group_witness :
  active_connections Sample.manager !! "unknown-group" = None
  /\ broadcast "hello" "unknown-group" Sample.manager Sample.net
     = (Ok tt, Sample.manager, Sample.net).
Proof.
  split; [reflexivity|].
  apply (broadcast_unknown_group "hello" "unknown-group" Sample.manager
           Sample.net).
  reflexivity.
Defined.

(** C8. In a registered group of [size group_set] connections of which
    one, [dead], has a transport that fails (with any [Exception]) and the
    others deliver, [broadcast] returns normally; each of the other
    connections receives the message, once; [dead] receives nothing and is
    discarded from the group, and from every other group, as [disconnect]
    does; the group keeps its other [size group_set - 1] members. *)
Theorem broadcast_prunes_failing message group self net group_set dead e :
  active_connections self !! group = Some group_set ->
  has_all self ->
  dead ∈ group_set ->
  transport net dead = Failing e ->
  is_Exception e = true ->
  (forall c, c ∈ group_set -> c <> dead -> transport net c = Open) ->
  exists self' net',
    broadcast message group self net = (Ok tt, self', net')
    /\ (forall c, c ∈ group_set -> c <> dead ->
          frames net' c = (frames net c ++ [message])%list)
    /\ (forall c, c ∉ group_set \/ c = dead -> frames net' c = frames net c)
    /\ active_connections self' !! group = Some (group_set ∖ {[dead]})
    /\ size (group_set ∖ {[dead]}) = size group_set - 1
    /\ (forall g, active_connections self' !! g
                  = (fun s => s ∖ {[dead]}) <$> active_connections self !! g)
    /\ cleanup [dead] group self = (Ok tt, self').
Proof.
  intros Hgroup Hall Hdead Htr Hexc Hothers.
  destruct (broadcast_spec message group self net group_set Hgroup Hall)
    as (net' & Hrun & _ & Hfr).
  { intros c e' Hc Hc'. destruct (decide (c = dead)) as [->|Hne].
    - rewrite Htr in Hc'. by injection Hc' as <-.
    - rewrite (Hothers c Hc Hne) in Hc'. discriminate Hc'. }
  assert (Hset : filter (fun c => failing net c = true) group_set = {[dead]}).
  { apply set_eq. intros c. rewrite elem_of_filter, elem_of_singleton.
    unfold failing. split.
    - intros [Hf Hc]. destruct (decide (c = dead)) as [|Hne]; [done|].
      by rewrite (Hothers c Hc Hne) in Hf.
    - intros ->. by rewrite Htr. }
  rewrite Hset in Hrun.
  exists (prune {[dead]} self), net'. split_and!.
  - exact Hrun.
  - intros c Hc Hne. rewrite Hfr, decide_True; [done|].
    split; [done|]. unfold failing. by rewrite (Hothers c Hc Hne).
  - intros c Hc. rewrite Hfr, decide_False; [done|].
    intros [Hin Hf]. destruct Hc as [Hc| ->]; [done|].
    unfold failing in Hf. by rewrite Htr in Hf.
  - unfold prune. simpl. by rewrite lookup_fmap, Hgroup.
  - rewrite size_difference by set_solver. by rewrite size_singleton.
  - intros g. unfold prune. simpl. by rewrite lookup_fmap.
  - rewrite cleanup_spec by done. simpl. do 2 f_equal. set_solver.
Qed.

Lemma broadcast_prunes_failing_witness :
  exists self' net',
    Registry.broadcast "hello" "all" Sample.manager Sample.net
    = (Ok tt, self', net')
    /\ frames net' 1 = ["hello"] /\ frames net' 3 = ["hello"]
    /\ frames net' 2 = []
    /\ active_connections self' !! "all" = Some ({[ 1; 2; 3 ]} ∖ {[ 2 ]})
    /\ active_connections self' !! "authenticated" = Some ({[ 2 ]} ∖ {[ 2 ]}).
Proof.
  destruct (broadcast_prunes_failing "hello" "all" Sample.manager Sample.net
              {[ 1; 2; 3 ]} 2 WebSocketDisconnect)
    as (self' & net' & Hrun & Hopen & Hrest & Hall & _ & Hgroups & _).
  - reflexivity.
  - by eexists.
  - set_solver.
  - reflexivity.
  - reflexivity.
  - intros c Hc Hne. simpl.
    destruct (Nat.eqb_spec c 2) as [->|_]; [done | reflexivity].
  - exists self', net'. split_and!.
    + exact Hrun.
    + rewrite (Hopen 1) by set_solver. reflexivity.
    + rewrite (Hopen 3) by set_solver. reflexivity.
    + rewrite (Hrest 2) by (by right). reflexivity.
    + exact Hall.
    + rewrite (Hgroups "authenticated"). reflexivity.
Defined.

End RegistryClaims.

(** * Properties of the front-switch and status handlers *)

Module ApiFacts.

Import Users Api.

(** Unfolds the monad and walks through every branch of a handler. *)
Ltac run_handler :=
  unfold try_except, mbind, M_bind, mret, M_ret, raise, lift, call,
    broadcast_fronting_update, broadcast_mental_state_update,
    broadcast_frontend_update, dict_get;
  repeat (simpl;
          match goal with
          | |- context [match ?x with _ => _ end] =>
              lazymatch x with
              | context [match _ with _ => _ end] => fail
              | _ => destruct x eqn:?
              end
          end);
  simpl.

Section Handlers.

Variable Ext : Type.
Variable set_front : list Json -> M Ext Json.
Variable get_fronters : M Ext Json.
Variable set_member_status : string -> Json -> Json -> M Ext Json.
Variable clear_member_status : string -> M Ext bool.
Variable write_mental_state : Json -> M Ext unit.

(** No run of [switch_front] returns, and none hands an event over. *)
Lemma switch_front_fails request_json user w :
  match switch_front Ext set_front get_fronters request_json user w with
  | (Ok _, _) => False
  | (Raise _, w') => events w' = events w
  end.
Proof.
  unfold switch_front. destruct w as [x evs]. run_handler; done.
Qed.

Lemma switch_single_front_fails request_json user w :
  match switch_single_front Ext set_front get_fronters request_json user w with
  | (Ok _, _) => False
  | (Raise _, w') => events w' = events w
  end.
Proof.
  unfold switch_single_front. destruct w as [x evs]. run_handler; try done.
  all: match goal with
       | H : _ || true = false |- _ => by rewrite orb_true_r in H
       end.
Qed.

Lemma update_mental_state_fails state user w :
  match update_mental_state Ext write_mental_state state user w with
  | (Ok _, _) => False
  | (Raise _, w') => events w' = events w
  end.
Proof.
  unfold update_mental_state. destruct w as [x evs]. run_handler; done.
Qed.

(** The run of [switch_front] in which both collaborators answer. *)
Lemma switch_front_after_refetch ids result x fronters_data x' user w :
  set_front ids (ext w) = (Ok result, x) ->
  get_fronters x = (Ok fronters_data, x') ->
  switch_front Ext set_front get_fronters
    (Ok (JDict [("members", JList ids)])) user w
  = (Raise (HTTPException 500), mkWorld x' (events w)).
Proof.
  intros Hset Hget. unfold switch_front. destruct w as [x0 evs].
  unfold try_except, mbind, M_bind, mret, M_ret, raise, lift, call,
    broadcast_fronting_update, dict_get.
  simpl in *. rewrite Hset. simpl. by rewrite Hget.
Qed.

Lemma switch_single_front_after_refetch
    member_id result x fronters_data x' user w :
  truthy member_id = true ->
  set_front [member_id] (ext w) = (Ok result, x) ->
  get_fronters x = (Ok fronters_data, x') ->
  switch_single_front Ext set_front get_fronters
    (Ok (JDict [("member_id", member_id)])) user w
  = (Raise (HTTPException 500), mkWorld x' (events w)).
Proof.
  intros Htruthy Hset Hget. unfold switch_single_front. destruct w as [x0 evs].
  unfold try_except, mbind, M_bind, mret, M_ret, raise, lift, call,
    broadcast_fronting_update, dict_get.
  simpl in *. rewrite Htruthy. simpl. rewrite Hset. simpl.
  rewrite orb_true_r. simpl. by rewrite Hget.
Qed.

Lemma set_member_status_events member_identifier status_data user w :
  events (set_member_status_endpoint Ext set_member_status
            member_identifier status_data user w).2
  = events w.
Proof.
  unfold set_member_status_endpoint, len. destruct w as [x evs].
  run_handler; done.
Qed.

Lemma clear_member_status_events member_identifier user w :
  events (clear_member_status_endpoint Ext clear_member_status
            member_identifier user w).2
  = events w.
Proof.
  unfold clear_member_status_endpoint. destruct w as [x evs].
  run_handler; done.
Qed.

End Handlers.

End ApiFacts.

Module ApiClaims.

Import Users Api ApiFacts.

(** C1.  The code does not do what the claim says.  [switch_front] and
    [switch_single_front] set the front, fetch the fronters again and then
    call [broadcast_fronting_update] with the fetched list, a name that
    [main.py] does not bind: the call raises [NameError] and the handler
    answers 500.  So no front-switch request succeeds, although the front
    has been switched, and no event is handed to any registry: neither on
    the failing run nor ever.  The same holds for [update_mental_state] and
    [broadcast_mental_state_update]; setting or clearing a member status
    calls no broadcast at all.  The last part is the run for the request
    with the member ids m1 and m2. *)
Theorem front_switch_ends_in_500
    (Ext : Type) (set_front : list Json -> M Ext Json)
    (get_fronters : M Ext Json)
    (set_member_status : string -> Json -> Json -> M Ext Json)
    (clear_member_status : string -> M Ext bool)
    (write_mental_state : Json -> M Ext unit) :
  (forall request_json user w,
      match switch_front Ext set_front get_fronters request_json user w with
      | (Ok _, _) => False
      | (Raise _, w') => events w' = events w
      end)
  /\ (forall request_json user w,
        match switch_single_front Ext set_front get_fronters
                request_json user w with
        | (Ok _, _) => False
        | (Raise _, w') => events w' = events w
        end)
  /\ (forall ids result x fronters_data x' user w,
        set_front ids (ext w) = (Ok result, x) ->
        get_fronters x = (Ok fronters_data, x') ->
        switch_front Ext set_front get_fronters
          (Ok (JDict [("members", JList ids)])) user w
        = (Raise (HTTPException 500), mkWorld x' (events w)))
  /\ (forall member_id result x fronters_data x' user w,
        truthy member_id = true ->
        set_front [member_id] (ext w) = (Ok result, x) ->
        get_fronters x = (Ok fronters_data, x') ->
        switch_single_front Ext set_front get_fronters
          (Ok (JDict [("member_id", member_id)])) user w
        = (Raise (HTTPException 500), mkWorld x' (events w)))
  /\ (forall state user w,
        match update_mental_state Ext write_mental_state state user w with
        | (Ok _, _) => False
        | (Raise _, w') => events w' = events w
        end)
  /\ (forall member_identifier status_data user w,
        events (set_member_status_endpoint Ext set_member_status
                  member_identifier status_data user w).2
        = events w)
  /\ (forall member_identifier user w,
        events (clear_member_status_endpoint Ext clear_member_status
                  member_identifier user w).2
        = events w)
  /\ switch_front (list Json) Sample.set_front Sample.get_fronters
       Sample.switch_request Sample.alice Sample.world
     = (Raise (HTTPException 500), mkWorld [JStr "m1"; JStr "m2"] []).
Proof.
  split_and!.
  - apply switch_front_fails.
  - apply switch_single_front_fails.
  - apply switch_front_after_refetch.
  - apply switch_single_front_after_refetch.
  - apply update_mental_state_fails.
  - apply set_member_status_events.
  - apply clear_member_status_events.
  - reflexivity.
Qed.

End ApiClaims.

(** * Properties of the page helpers *)

Module PagesFacts.

Import Api Pages.

Lemma str_app_cons c s1 s2 : String c s1 ++ s2 = String c (s1 ++ s2).
Proof. reflexivity. Qed.

Lemma str_app_nil_l s : EmptyString ++ s = s.
Proof. reflexivity. Qed.

Lemma str_app_nil_r s : s ++ EmptyString = s.
Proof.
  induction s as [|c s IH]; [reflexivity|]. by rewrite str_app_cons, IH.
Qed.

Lemma str_app_assoc s1 s2 s3 : (s1 ++ s2) ++ s3 = s1 ++ (s2 ++ s3).
Proof.
  induction s1 as [|c s1 IH]; [reflexivity|].
  by rewrite !str_app_cons, IH.
Qed.

Lemma replace_char_app c by_ s1 s2 :
  replace_char c by_ (s1 ++ s2)
  = replace_char c by_ s1 ++ replace_char c by_ s2.
Proof.
  induction s1 as [|d s1 IH]; [reflexivity|].
  rewrite str_app_cons. cbn [replace_char].
  destruct (Ascii.eqb d c); rewrite IH.
  - by rewrite str_app_assoc.
  - by rewrite str_app_cons.
Qed.

Lemma replace_all_app s1 s2 :
  replace_all (s1 ++ s2) = replace_all s1 ++ replace_all s2.
Proof. unfold replace_all. by rewrite !replace_char_app. Qed.

Lemma replace_all_char c : replace_all (String c EmptyString) = entity c.
Proof.
  unfold replace_all, entity. cbn [replace_char].
  destruct (Ascii.eqb c "&") eqn:E1; [reflexivity|]. cbn [replace_char].
  destruct (Ascii.eqb c "<") eqn:E2; [reflexivity|]. cbn [replace_char].
  destruct (Ascii.eqb c ">") eqn:E3; [reflexivity|]. cbn [replace_char].
  destruct (Ascii.eqb c "034") eqn:E4; [reflexivity|]. cbn [replace_char].
  destruct (Ascii.eqb c "'") eqn:E5; reflexivity.
Qed.

Lemma replace_all_one_pass text : replace_all text = escape_chars text.
Proof.
  induction text as [|c rest IH]; [reflexivity|].
  change (String c rest) with (String c EmptyString ++ rest) at 1.
  rewrite replace_all_app, replace_all_char, IH. reflexivity.
Qed.

Lemma escape_html_unfold text : escape_html text = escape_chars text.
Proof.
  unfold escape_html. destruct (String.eqb_spec text EmptyString) as [->|_].
  - reflexivity.
  - apply replace_all_one_pass.
Qed.

Lemma escape_chars_app s1 s2 :
  escape_chars (s1 ++ s2) = escape_chars s1 ++ escape_chars s2.
Proof.
  induction s1 as [|c s1 IH]; [reflexivity|].
  rewrite str_app_cons. cbn [escape_chars]. by rewrite IH, str_app_assoc.
Qed.

Lemma all_chars_app p s1 s2 :
  all_chars p (s1 ++ s2) = all_chars p s1 && all_chars p s2.
Proof.
  induction s1 as [|c s1 IH]; [reflexivity|].
  rewrite str_app_cons. cbn [all_chars]. by rewrite IH, andb_assoc.
Qed.

Lemma entity_no_markup c :
  all_chars (fun ch => negb (is_markup ch)) (entity c) = true.
Proof.
  unfold entity.
  destruct (Ascii.eqb c "&") eqn:E1; [reflexivity|].
  destruct (Ascii.eqb c "<") eqn:E2; [reflexivity|].
  destruct (Ascii.eqb c ">") eqn:E3; [reflexivity|].
  destruct (Ascii.eqb c "034") eqn:E4; [reflexivity|].
  destruct (Ascii.eqb c "'") eqn:E5; [reflexivity|].
  cbn [all_chars]. unfold is_markup. by rewrite E2, E3, E4, E5.
Qed.

Lemma upper_hex_char ch :
  is_hex_char ch = true -> is_upper_hex (upper_ascii ch) = true.
Proof.
  destruct ch as [[] [] [] [] [] [] [] []]; vm_compute; intros H;
    first [reflexivity | discriminate H].
Qed.

Lemma upper_hex_fixed ch :
  is_upper_hex ch = true ->
  upper_ascii ch = ch /\ is_hex_char ch = true /\ Ascii.eqb ch "#" = false.
Proof.
  destruct ch as [[] [] [] [] [] [] [] []]; vm_compute; intros H;
    first [discriminate H | by split_and!].
Qed.

Lemma upper_length s : String.length (upper s) = String.length s.
Proof. induction s as [|c s IH]; simpl; [done|]. by rewrite IH. Qed.

Lemma upper_all_hex s :
  all_chars is_hex_char s = true -> all_chars is_upper_hex (upper s) = true.
Proof.
  induction s as [|c s IH]; simpl; [done|].
  intros [Hc Hs]%andb_true_iff. by rewrite upper_hex_char, IH.
Qed.

Lemma upper_hex_string_fixed s :
  all_chars is_upper_hex s = true ->
  upper s = s /\ all_chars is_hex_char s = true.
Proof.
  induction s as [|c s IH]; simpl; [done|].
  intros [Hc Hs]%andb_true_iff.
  destruct (upper_hex_fixed c Hc) as (-> & -> & _).
  destruct (IH Hs) as [-> ->]. done.
Qed.

(** A colour is left as it is. *)
Lemma normalize_hex_color_fixed s default :
  is_color s = true -> normalize_hex (JStr s) default = s.
Proof.
  unfold is_color, normalize_hex.
  destruct s as [|h c]; [done|].
  destruct (Ascii.eqb_spec h "#") as [->|Hne].
  2:{ destruct h as [[] [] [] [] [] [] [] []]; try done. }
  intros [Hlen Hall]%andb_true_iff.
  change (String.eqb (String "#" c) EmptyString) with false. cbn [lstrip].
  change (Ascii.eqb "#" "#") with true. cbn iota.
  assert (Hstrip : lstrip "#" c = c).
  { destruct c as [|d c']; [done|]. simpl in Hall.
    apply andb_true_iff in Hall as [Hd _].
    destruct (upper_hex_fixed d Hd) as (_ & _ & Hd'). simpl. by rewrite Hd'. }
  rewrite Hstrip, Hlen.
  destruct (upper_hex_string_fixed c Hall) as [-> ->]. reflexivity.
Qed.

Lemma normalize_hex_is_color color default :
  is_color default = true -> is_color (normalize_hex color default) = true.
Proof.
  intros Hd. unfold normalize_hex.
  destruct color as [| | |s| |]; try done.
  destruct (String.eqb s EmptyString); [done|].
  destruct (_ && _) eqn:E; [|done].
  apply andb_true_iff in E as [Hlen Hall].
  change ("#" ++ upper (lstrip "#" s)) with (String "#" (upper (lstrip "#" s))).
  cbn [is_color]. by rewrite upper_length, Hlen, (upper_all_hex _ Hall).
Qed.

Lemma basename_no_slash path : char_in "/" (basename path) = false.
Proof.
  induction path as [|c rest IH]; [reflexivity|].
  cbn [basename]. destruct (char_in "/" rest) eqn:Hrest; [exact IH|].
  destruct (Ascii.eqb_spec c "/") as [->|Hne]; [exact Hrest|].
  cbn [char_in]. rewrite Hrest, orb_false_r.
  apply Ascii.eqb_neq. congruence.
Qed.

Lemma basename_suffix path : exists dir, path = dir ++ basename path.
Proof.
  induction path as [|c rest IH]; [by exists EmptyString|].
  cbn [basename]. destruct (char_in "/" rest).
  - destruct IH as [dir Hdir]. exists (String c dir).
    by rewrite str_app_cons, <- Hdir.
  - destruct (Ascii.eqb c "/").
    + by exists (String c EmptyString).
    + by exists EmptyString.
Qed.

Lemma lower_ascii_idemp c : Py.lower_ascii (Py.lower_ascii c) = Py.lower_ascii c.
Proof. destruct c as [[] [] [] [] [] [] [] []]; reflexivity. Qed.

Lemma lower_idemp s : Py.lower (Py.lower s) = Py.lower s.
Proof.
  induction s as [|c s IH]; simpl; [done|]. by rewrite lower_ascii_idemp, IH.
Qed.

End PagesFacts.

Module PagesExtras.

Import Api Pages PagesFacts.

(** X1. [escape_html] is the one-pass escaping: each of the five characters
    [&], [<], [>], the double and the single quote becomes its entity, every
    other character stays, and an ampersand that a replacement wrote is not
    escaped again.  So escaping goes through concatenation. *)
Theorem escape_html_one_pass text1 text2 :
  escape_html text1 = escape_chars text1
  /\ escape_html (text1 ++ text2) = escape_html text1 ++ escape_html text2.
Proof.
  split; [apply escape_html_unfold|].
  by rewrite !escape_html_unfold, escape_chars_app.
Qed.

(** X2. The text that [escape_html] returns holds no [<], no [>] and no
    quote character, whatever the input. *)
Theorem escape_html_no_markup text :
  all_chars (fun ch => negb (is_markup ch)) (escape_html text) = true.
Proof.
  rewrite escape_html_unfold.
  induction text as [|c rest IH]; [reflexivity|].
  cbn [escape_chars]. by rewrite all_chars_app, entity_no_markup, IH.
Qed.

(** X3. Whatever the member record holds as its colour (a string, well
    formed or not, or something that is no string), [normalize_hex] returns
    a colour of the form [#RRGGBB] with upper-case hex digits, provided the
    default is one; and normalising a second time changes nothing. *)
Theorem normalize_hex_well_formed color default :
  is_color default = true ->
  is_color (normalize_hex color default) = true
  /\ normalize_hex (JStr (normalize_hex color default)) default
     = normalize_hex color default.
Proof.
  intros Hd.
  pose proof (normalize_hex_is_color color default Hd) as Hc.
  split; [exact Hc|]. by apply normalize_hex_color_fixed.
Qed.

Lemma normalize_hex_well_formed_witness :
  is_color default_color = true
  /\ normalize_hex (JStr "##a1b2c3") default_color = "#A1B2C3"
  /\ is_color (normalize_hex (JStr "##a1b2c3") default_color) = true
  /\ normalize_hex (JNum 7) default_color = default_color.
Proof.
  destruct (normalize_hex_well_formed (JStr "##a1b2c3") default_color eq_refl)
    as [Hc _].
  split; [reflexivity|]. split; [reflexivity|]. split; [exact Hc|].
  reflexivity.
Defined.

(** X4. [get_avatar] serves a file only under a name without a slash, a
    name the request path ends with: whatever path comes in, the file is
    looked up directly inside the data directory.  The media type is chosen
    from the lower-cased name, so the case of the extension does not
    matter.  Anything that is not a file there is answered with 404. *)
Theorem get_avatar_inside_data_dir is_file filename :
  match get_avatar is_file filename with
  | Ok (name, media_type) =>
      char_in "/" name = false
      /\ (exists dir, filename = dir ++ name)
      /\ is_file name = true
      /\ media_type = media_type_of (Py.lower name)
  | Raise e =>
      e = HTTPException 404 /\ is_file (basename filename) = false
  end.
Proof.
  unfold get_avatar.
  destruct (is_file (basename filename)) eqn:E; [|done].
  split_and!; [apply basename_no_slash | apply basename_suffix | done |].
  unfold media_type_of. by rewrite lower_idemp.
Qed.

End PagesExtras.

(** * More properties of the user store *)

Module UsersMoreFacts.

Import Users Inv UsersFacts UsersAuth.

Lemma load_dump env u : load_row env (dump_user u) = force_owner env u.
Proof.
  unfold load_row, force_owner. simpl.
  destruct (is_owner_username env (u_username u)); [done|]. by destruct u.
Qed.

Lemma force_owner_password env u :
  u_password_hash (force_owner env u) = u_password_hash u.
Proof. unfold force_owner. by destruct (is_owner_username env _). Qed.

Lemma force_owner_idemp env u :
  force_owner env (force_owner env u) = force_owner env u.
Proof. apply force_owner_fixed, force_owner_ok. Qed.

Lemma get_users_saved env users :
  get_users env (Some (map dump_user (map (force_owner env) users)))
  = map (force_owner env) users.
Proof.
  simpl. induction users as [|u users IH]; simpl; [done|].
  by rewrite load_dump, force_owner_idemp, IH.
Qed.

Lemma get_users_saved_ok env users :
  Forall (user_ok env) users ->
  get_users env (Some (map dump_user (map (force_owner env) users))) = users.
Proof.
  intros H. rewrite get_users_saved. by apply map_force_owner_fixed.
Qed.

Lemma Forall_user_ok_app env users u :
  Forall (user_ok env) users -> user_ok env u ->
  Forall (user_ok env) (users ++ [u])%list.
Proof. intros H Hu. apply Forall_app. split; [done|]. by constructor. Qed.

Lemma create_user_users env or user_create requesting_user st u st' :
  create_user env or user_create requesting_user st = (Ok u, st') ->
  get_users env st' = (get_users env st ++ [u])%list.
Proof.
  intros E.
  destruct (create_user_Ok _ _ _ _ _ _ _ E) as (_ & _ & _ & _ & Hok & ->).
  apply get_users_saved_ok, Forall_user_ok_app; [apply get_users_ok | done].
Qed.

Lemma find_app_last {A} (p : A -> bool) (l : list A) x :
  List.find p l = None -> p x = true -> List.find p (l ++ [x])%list = Some x.
Proof.
  induction l as [|y l IH]; simpl; intros Hl Hx; [by rewrite Hx|].
  destruct (p y); [done|]. by apply IH.
Qed.

Lemma find_app_None {A} (p : A -> bool) (l : list A) x :
  List.find p l = None -> p x = false -> List.find p (l ++ [x])%list = None.
Proof.
  induction l as [|y l IH]; simpl; intros Hl Hx; [by rewrite Hx|].
  destruct (p y); [done|]. by apply IH.
Qed.

Lemma find_app_Some {A} (p : A -> bool) (l l' : list A) y :
  List.find p l = Some y -> List.find p (l ++ l')%list = Some y.
Proof.
  induction l as [|z l IH]; simpl; [done|]. destruct (p z); [done|]. apply IH.
Qed.

Lemma find_None_forall {A} (p : A -> bool) (l : list A) :
  List.find p l = None -> forall x, x ∈ l -> p x = false.
Proof.
  induction l as [|y l IH]; simpl; intros Hl x Hx; [inversion Hx|].
  destruct (p y) eqn:E; [done|].
  inversion Hx; subst; [done | by apply IH].
Qed.

(** [locate] gives an index of the list, and the record there has the id. *)
Lemma locate_lookup user_id users i0 i user :
  locate user_id users i0 = Some (i, user) ->
  exists k, i = i0 + k /\ users !! k = Some user /\ u_id user = user_id
            /\ List.find (fun u => String.eqb (u_id u) user_id) users = Some user.
Proof.
  revert i0. induction users as [|v users IH]; intros i0; simpl; [done|].
  destruct (String.eqb_spec (u_id v) user_id) as [Hid|Hne].
  - intros [= <- <-]. exists 0. split_and!; [lia | done | done | done].
  - intros H. destruct (IH _ H) as (k & -> & Hk & Hid & Hf).
    exists (S k). split_and!; [lia | done | done | done].
Qed.

Lemma Forall_insert_ok env users i (u : User) :
  Forall (user_ok env) users -> user_ok env u ->
  Forall (user_ok env) (<[i := u]> users).
Proof. intros H Hu. by apply Forall_insert. Qed.

Lemma update_user_users env or user_id user_update requesting_user st u' st' :
  update_user env or user_id user_update requesting_user st
  = (Ok (Some u'), st') ->
  exists k user,
    get_users env st !! k = Some user
    /\ u_id user = user_id
    /\ get_user_by_id env user_id st = Some user
    /\ u_id u' = u_id user
    /\ u_username u' = u_username user
    /\ get_users env st' = <[k := u']> (get_users env st).
Proof.
  intros E.
  apply update_user_Ok in E as (i & user & Hloc & Hid & Hn & _ & Hok & ->).
  apply locate_lookup in Hloc as (k & -> & Hk & Hid' & Hf).
  exists k, user. split_and!; try done.
  simpl. apply get_users_saved_ok, Forall_insert_ok; [apply get_users_ok | done].
Qed.

Lemma delete_user_users env user_id requesting_user st st' :
  delete_user env user_id requesting_user st = (Ok true, st') ->
  get_users env st'
  = List.filter (fun u => negb (String.eqb (u_id u) user_id)) (get_users env st).
Proof.
  intros E. apply delete_user_Ok_true in E as ->.
  rewrite <- (map_force_owner_fixed env (List.filter _ _)) at 1.
  - apply get_users_saved_ok, Forall_filter_bool, get_users_ok.
  - apply Forall_filter_bool, get_users_ok.
Qed.

Lemma create_user_finds env or user_create requesting_user st u st' username :
  create_user env or user_create requesting_user st = (Ok u, st') ->
  Py.lower username = Py.lower (uc_username user_create) ->
  get_user_by_username env username st' = Some u.
Proof.
  intros E Hlow. pose proof (create_user_users _ _ _ _ _ _ _ E) as Husers.
  destruct (create_user_Ok _ _ _ _ _ _ _ E) as (Hnone & _ & Hn & _).
  unfold get_user_by_username in *. rewrite Husers, Hlow.
  apply find_app_last; [exact Hnone|]. rewrite Hn. apply String.eqb_refl.
Qed.

Lemma find_filter_ne (users : list User) user_id other :
  other <> user_id ->
  List.find (fun u => String.eqb (u_id u) other)
    (List.filter (fun u => negb (String.eqb (u_id u) user_id)) users)
  = List.find (fun u => String.eqb (u_id u) other) users.
Proof.
  intros Hne. induction users as [|v users IH]; simpl; [done|].
  destruct (String.eqb_spec (u_id v) user_id) as [Hid|Hid]; simpl.
  - destruct (String.eqb_spec (u_id v) other) as [Ho|_]; [congruence | exact IH].
  - by rewrite IH.
Qed.

Lemma find_filter_eq (users : list User) user_id :
  List.find (fun u => String.eqb (u_id u) user_id)
    (List.filter (fun u => negb (String.eqb (u_id u) user_id)) users)
  = None.
Proof.
  induction users as [|v users IH]; simpl; [done|].
  destruct (String.eqb (u_id v) user_id) eqn:E; simpl; [exact IH|].
  by rewrite E.
Qed.

Lemma is_owner_username_owner env :
  is_owner_username env (get_owner_username env) = true.
Proof. unfold is_owner_username. apply String.eqb_refl. Qed.

Lemma delete_then_lookup_aux env user_id requesting_user st st' :
  delete_user env user_id requesting_user st = (Ok true, st') ->
  get_user_by_id env user_id st' = None.
Proof.
  intros E. unfold get_user_by_id. rewrite (delete_user_users _ _ _ _ _ E).
  apply find_filter_eq.
Qed.

Lemma locate_insert_find user_id users i0 i user (u' : User) :
  locate user_id users i0 = Some (i, user) ->
  u_id u' = user_id ->
  List.find (fun u => String.eqb (u_id u) user_id) (<[i - i0 := u']> users)
  = Some u'.
Proof.
  intros Hloc Hid. revert i0 Hloc.
  induction users as [|v users IH]; intros i0; simpl; [done|].
  destruct (String.eqb (u_id v) user_id) eqn:E.
  - intros [= <- <-]. rewrite Nat.sub_diag. simpl.
    by rewrite Hid, String.eqb_refl.
  - intros Hloc. pose proof (locate_lookup _ _ _ _ _ Hloc) as (k & -> & _).
    replace (S i0 + k - i0) with (S k) by lia. simpl. rewrite E.
    specialize (IH _ Hloc). by replace (S i0 + k - S i0) with k in IH by lia.
Qed.

Lemma update_user_found env or user_id user_update requesting_user st u' st' :
  update_user env or user_id user_update requesting_user st
  = (Ok (Some u'), st') ->
  get_user_by_id env user_id st' = Some u'.
Proof.
  intros E.
  apply update_user_Ok in E as (i & user & Hloc & Hid & _ & _ & Hok & ->).
  unfold get_user_by_id.
  rewrite get_users_saved_ok
    by (apply Forall_insert_ok; [apply get_users_ok | done]).
  pose proof (locate_insert_find _ _ _ _ _ u' Hloc) as H.
  rewrite Nat.sub_0_r in H. apply H.
  apply locate_lookup in Hloc as (_ & _ & _ & Hu & _). congruence.
Qed.

Lemma not_owner_flag_not_owner_name env st user_id user :
  get_user_by_id env user_id st = Some user ->
  u_is_owner user = false ->
  is_owner_username env (u_username user) = false.
Proof.
  intros Hfind Hflag.
  destruct (is_owner_username env (u_username user)) eqn:E; [|done].
  destruct (owner_record_is_owner _ _ _ _ Hfind E). congruence.
Qed.

End UsersMoreFacts.

Module UsersExtras.

Import Users Inv UsersFacts UsersAuth UsersMoreFacts.

(** X5. Saving and loading again gives back the users that were saved, each
    with the owner flags forced; and what [get_users] loads is unchanged by
    a save and a new load. *)
Theorem save_load_round_trip env :
  (forall users,
      get_users env (save_users env users).2 = map (force_owner env) users)
  /\ (forall st,
        get_users env (save_users env (get_users env st)).2 = get_users env st).
Proof.
  split.
  - intros users. apply get_users_saved.
  - intros st. apply get_users_saved_ok, get_users_ok.
Qed.

(** X6. After a successful [create_user] the store holds the records it held
    before, in their order, followed by the new record; and
    [get_user_by_username] finds the new record under the name it was created
    with, in any spelling of upper and lower case. *)
Theorem create_then_lookup env or user_create requesting_user st u st' :
  create_user env or user_create requesting_user st = (Ok u, st') ->
  get_users env st' = (get_users env st ++ [u])%list
  /\ forall username,
       Py.lower username = Py.lower (uc_username user_create) ->
       get_user_by_username env username st' = Some u.
Proof.
  intros E. split; [by apply create_user_users in E|].
  intros username Hlow. by apply create_user_finds with or user_create requesting_user st.
Qed.

Lemma create_then_lookup_witness :
  exists u st',
    create_user Sample.env Sample.oracle SampleMore.create_dave None
      SampleMore.store = (Ok u, st')
    /\ get_user_by_username Sample.env "DAVE" st' = Some u
    /\ List.length (get_users Sample.env st') = 5.
Proof.
  eexists _, _. split; [reflexivity|].
  match goal with
  | |- get_user_by_username _ _ ?st' = Some ?u /\ _ =>
      destruct (create_then_lookup Sample.env Sample.oracle
                  SampleMore.create_dave None SampleMore.store u st' eq_refl)
        as [Husers Hfind]
  end.
  split; [apply Hfind; reflexivity | reflexivity].
Defined.

(** X7. If [bcrypt] accepts a password for the hash it made of it, then after
    a successful [create_user] the new user logs in: [verify_user] with the
    name (in any case) and the password returns the created record. *)
Theorem create_then_verify env or user_create requesting_user st u st' :
  (forall h, bcrypt_hash or (uc_password user_create) = Ok h ->
             bcrypt_verify or (uc_password user_create) h = Ok true) ->
  create_user env or user_create requesting_user st = (Ok u, st') ->
  forall username,
    Py.lower username = Py.lower (uc_username user_create) ->
    verify_user env or username (uc_password user_create) st' = Ok (Some u).
Proof.
  intros Horacle E username Hlow.
  unfold verify_user. rewrite (create_user_finds _ _ _ _ _ _ _ _ E Hlow).
  assert (Hh : bcrypt_hash or (uc_password user_create) = Ok (u_password_hash u)).
  { revert E. unfold create_user.
    destruct (get_user_by_username env _ st); [done|].
    destruct (is_owner_username env _ && _); [done|].
    destruct (if is_owner_username env _ then _ else _) as [[? ?] ?].
    destruct (bcrypt_hash or _) as [h|]; [|done].
    intros [= <- _]. by rewrite force_owner_password. }
  by rewrite (Horacle _ Hh).
Qed.

Lemma create_then_verify_witness :
  exists u st',
    create_user Sample.env Sample.oracle SampleMore.create_dave None
      SampleMore.store = (Ok u, st')
    /\ verify_user Sample.env Sample.oracle "dave" "pw" st' = Ok (Some u)
    /\ verify_user Sample.env Sample.oracle "dave" "other" st' = Ok None.
Proof.
  eexists _, _. split; [reflexivity|]. split; [|reflexivity].
  apply (create_then_verify Sample.env Sample.oracle SampleMore.create_dave
           None SampleMore.store).
  - intros h [= <-]. reflexivity.
  - reflexivity.
  - reflexivity.
Defined.

(** X8. The operations keep the usernames unique up to case: if no two
    records of the store share a lower-cased username, the same holds of the
    store that [create_user], [update_user] or [delete_user] leaves, whatever
    their arguments and however they end. *)
Theorem unique_names_kept env st :
  unique_names env st ->
  (forall or user_create requesting_user,
      unique_names env (create_user env or user_create requesting_user st).2)
  /\ (forall or user_id user_update requesting_user,
        unique_names env
          (update_user env or user_id user_update requesting_user st).2)
  /\ (forall user_id requesting_user,
        unique_names env (delete_user env user_id requesting_user st).2).
Proof.
  intros Huniq. split_and!.
  - intros or uc ru.
    destruct (create_user env or uc ru st) as [[u|e] st'] eqn:E; simpl.
    + unfold unique_names. rewrite (create_user_users _ _ _ _ _ _ _ E).
      unfold name_keys. rewrite map_app. simpl.
      apply NoDup_app. split_and!; [exact Huniq | | apply NoDup_singleton].
      intros key Hkey Hnew. apply list_elem_of_singleton in Hnew as ->.
      apply list_elem_of_fmap in Hkey as (v & Hv & Hin).
      destruct (create_user_Ok _ _ _ _ _ _ _ E) as (Hnone & _ & Hn & _).
      unfold get_user_by_username in Hnone.
      pose proof (find_None_forall _ _ Hnone v Hin) as Hp. simpl in Hp.
      rewrite <- Hn, Hv, String.eqb_refl in Hp. discriminate Hp.
    + by apply create_user_Raise in E as ->.
  - intros or uid up ru.
    destruct (update_user env or uid up ru st) as [r st'] eqn:E; simpl.
    destruct r as [[u'|]|e];
      try (apply update_user_unchanged in E as ->; [done | by intros ?]).
    apply update_user_users in E as (k & user & Hk & _ & _ & _ & Hn & Husers).
    unfold unique_names, name_keys. rewrite Husers.
    rewrite list_fmap_insert, Hn.
    rewrite list_insert_id; [exact Huniq|].
    by rewrite list_lookup_fmap, Hk.
  - intros uid ru.
    destruct (delete_user env uid ru st) as [r st'] eqn:E; simpl.
    destruct r as [[|]|e]; try (by apply delete_user_unchanged in E as ->).
    unfold unique_names, name_keys. rewrite (delete_user_users _ _ _ _ _ E).
    clear E. unfold unique_names, name_keys in Huniq.
    induction (get_users env st) as [|v users IH]; simpl; [constructor|].
    apply NoDup_cons in Huniq as [Hv Hrest].
    destruct (negb (String.eqb (u_id v) uid)); simpl; [|by apply IH].
    apply NoDup_cons. split; [|by apply IH].
    intros Hin. apply Hv.
    apply list_elem_of_fmap in Hin as (w & Hw & Hwin).
    apply list_elem_of_fmap. exists w. split; [done|].
    apply list_elem_of_In, filter_In in Hwin as [Hwin _].
    by apply list_elem_of_In.
Qed.

Lemma unique_names_kept_witness :
  unique_names Sample.env SampleMore.store
  /\ unique_names Sample.env
       (create_user Sample.env Sample.oracle SampleMore.create_dave None
          SampleMore.store).2
  /\ unique_names Sample.env
       (delete_user Sample.env "id-2" None SampleMore.store).2.
Proof.
  assert (H : unique_names Sample.env SampleMore.store).
  { unfold unique_names. apply NoDup_ListNoDup.
    repeat (constructor; [vm_compute; intuition discriminate|]). constructor. }
  destruct (unique_names_kept Sample.env SampleMore.store H)
    as (Hc & _ & Hd).
  split; [exact H|]. split; [apply Hc | apply Hd].
Defined.

(** X9. A successful [update_user] rewrites one record, the first with the
    id, in its place: that record keeps its id and its username, every other
    record is loaded afterwards exactly as before, and no record is added or
    lost. *)
Theorem update_keeps_identity env or user_id user_update requesting_user st u' st' :
  update_user env or user_id user_update requesting_user st
  = (Ok (Some u'), st') ->
  exists k user,
    get_users env st !! k = Some user
    /\ u_id user = user_id
    /\ u_id u' = user_id
    /\ u_username u' = u_username user
    /\ get_users env st' !! k = Some u'
    /\ (forall j, j <> k -> get_users env st' !! j = get_users env st !! j)
    /\ List.length (get_users env st') = List.length (get_users env st).
Proof.
  intros E.
  apply update_user_users in E as (k & user & Hk & Hid & _ & Hid' & Hn & ->).
  exists k, user. split_and!; try done.
  - congruence.
  - apply list_lookup_insert_eq. by apply lookup_lt_Some in Hk.
  - intros j Hj. by apply list_lookup_insert_ne.
  - apply length_insert.
Qed.

Lemma update_keeps_identity_witness :
  exists u' st',
    update_user Sample.env Sample.oracle "id-4" SampleMore.promote None
      SampleMore.store = (Ok (Some u'), st')
    /\ u_username u' = "carol"
    /\ get_users Sample.env st' !! 3 = Some u'
    /\ get_users Sample.env st' !! 1 = Some Sample.alice.
Proof.
  eexists _, _. split; [reflexivity|].
  match goal with
  | |- u_username ?u' = _ /\ get_users _ ?st' !! _ = _ /\ _ =>
      destruct (update_keeps_identity Sample.env Sample.oracle "id-4"
                  SampleMore.promote None SampleMore.store u' st' eq_refl)
        as (k & user & _ & _ & _ & _ & _ & _ & _)
  end.
  split_and!; reflexivity.
Defined.

(** X10. The password of a record changes only through a verified change:
    after a successful [update_user], either the patch gave both a current
    and a new password, [bcrypt] accepted the current one for the stored hash
    and the record holds the hash of the new one, or the stored hash is the
    one it was.  A new password that comes without the current one is
    ignored. *)
Theorem update_password_rule env or user_id user_update requesting_user st u' st' :
  update_user env or user_id user_update requesting_user st
  = (Ok (Some u'), st') ->
  exists user,
    get_user_by_id env user_id st = Some user
    /\ if Py.truthy (up_current_password user_update)
          && Py.truthy (up_new_password user_update)
       then exists current new,
              up_current_password user_update = Some current
              /\ up_new_password user_update = Some new
              /\ bcrypt_verify or current (u_password_hash user) = Ok true
              /\ bcrypt_hash or new = Ok (u_password_hash u')
       else u_password_hash u' = u_password_hash user.
Proof.
  unfold update_user.
  destruct (locate user_id (get_users env st) 0) as [[i user]|] eqn:Hloc;
    [|done].
  apply locate_lookup in Hloc as (k & _ & _ & _ & Hfind).
  destruct (u_is_owner user && _); [done|].
  destruct (match requesting_user with Some _ => _ | None => _ end); [done|].
  destruct (Py.truthy (up_current_password user_update)
            && Py.truthy (up_new_password user_update)) eqn:Hboth.
  - destruct (up_current_password user_update) as [current|]; [|done].
    destruct (up_new_password user_update) as [new|];
      [|by rewrite andb_false_r in Hboth].
    simpl.
    destruct (bcrypt_verify or current (u_password_hash user)) as [[|]|] eqn:Hv;
      try done.
    destruct (bcrypt_hash or new) as [h|] eqn:Hh; [|done].
    simpl. intros [= <- _]. exists user. split; [exact Hfind|].
    exists current, new. by rewrite force_owner_password.
  - simpl. intros [= <- _]. exists user. split; [exact Hfind|].
    by rewrite force_owner_password.
Qed.

Lemma update_password_rule_witness :
  exists u' st',
    update_user Sample.env Sample.oracle "id-4" SampleMore.new_password_only
      None SampleMore.store = (Ok (Some u'), st')
    /\ u_password_hash u' = u_password_hash SampleMore.carol.
Proof.
  eexists _, _. split; [reflexivity|].
  match goal with
  | |- u_password_hash ?u' = _ =>
      destruct (update_password_rule Sample.env Sample.oracle "id-4"
                  SampleMore.new_password_only None SampleMore.store u' _
                  eq_refl) as (user & Hfind & Hhash)
  end.
  injection Hfind as <-. exact Hhash.
Defined.

(** X11. A password change with a current password that [bcrypt] does not
    accept fails, and the store is left as it was. *)
Theorem update_wrong_password_rejected
    env or user_id user_update requesting_user st user current new :
  get_user_by_id env user_id st = Some user ->
  up_current_password user_update = Some current ->
  up_new_password user_update = Some new ->
  current <> EmptyString -> new <> EmptyString ->
  bcrypt_verify or current (u_password_hash user) = Ok false ->
  exists e,
    update_user env or user_id user_update requesting_user st = (Raise e, st)
    /\ (requesting_user = None -> up_is_admin user_update = None ->
        e = ValueError "Current password is incorrect").
Proof.
  intros Hfind Hcur Hnew Hc Hn Hv. unfold update_user.
  destruct (locate_Some _ _ 0 _ Hfind) as (k & -> & _).
  destruct (u_is_owner user && _) eqn:Hrev.
  { eexists. split; [done|]. intros _ Hadm. rewrite Hadm in Hrev.
    by rewrite andb_false_r in Hrev. }
  destruct (match requesting_user with Some _ => _ | None => _ end) eqn:Hact.
  { eexists. split; [done|]. intros ->. done. }
  rewrite Hcur, Hnew. simpl.
  apply String.eqb_neq in Hc, Hn. rewrite Hc, Hn. simpl. rewrite Hv.
  eexists. split; done.
Qed.

Lemma update_wrong_password_rejected_witness :
  update_user Sample.env Sample.oracle "id-4" SampleMore.wrong_password None
    SampleMore.store
  = (Raise (ValueError "Current password is incorrect"), SampleMore.store).
Proof.
  destruct (update_wrong_password_rejected Sample.env Sample.oracle "id-4"
              SampleMore.wrong_password None SampleMore.store SampleMore.carol
              "guess" "next" eq_refl eq_refl eq_refl
              ltac:(discriminate) ltac:(discriminate) eq_refl)
    as (e & Hrun & He).
  rewrite (He eq_refl eq_refl) in Hrun. exact Hrun.
Defined.

(** X12. When an actor is given who is not the owner, [update_user] and
    [delete_user] refuse to touch another account that is an admin: both
    raise [PermissionError] and leave the store as it was. *)
Theorem admin_accounts_guarded env or user_id user_update actor st user :
  get_user_by_id env user_id st = Some user ->
  u_is_admin user = true ->
  u_is_owner actor = false ->
  u_id actor <> u_id user ->
  (exists msg,
      update_user env or user_id user_update (Some actor) st
      = (Raise (PermissionError msg), st))
  /\ (exists msg,
        delete_user env user_id (Some actor) st
        = (Raise (PermissionError msg), st)).
Proof.
  intros Hfind Hadm Hact Hne. split.
  - unfold update_user. destruct (locate_Some _ _ 0 _ Hfind) as (k & -> & _).
    destruct (u_is_owner user && _); [by eexists|].
    apply String.eqb_neq in Hne. rewrite Hadm, Hne, Hact. simpl. by eexists.
  - unfold delete_user. unfold get_user_by_id in Hfind. rewrite Hfind.
    destruct (u_is_owner user); [by eexists|].
    rewrite Hadm, Hact. simpl. by eexists.
Qed.

Lemma admin_accounts_guarded_witness :
  u_is_admin Sample.bob = true
  /\ u_is_owner Sample.alice = false
  /\ (exists msg,
        update_user Sample.env Sample.oracle "id-2" SampleMore.promote
          (Some Sample.alice) SampleMore.store
        = (Raise (PermissionError msg), SampleMore.store))
  /\ (exists msg,
        delete_user Sample.env "id-2" (Some Sample.alice) SampleMore.store
        = (Raise (PermissionError msg), SampleMore.store)).
Proof.
  split; [reflexivity|]. split; [reflexivity|].
  apply (admin_accounts_guarded Sample.env Sample.oracle "id-2"
           SampleMore.promote Sample.alice SampleMore.store Sample.bob);
    [reflexivity | reflexivity | reflexivity | discriminate].
Defined.

(** X13. An id that no record has is not an error: [update_user] returns
    [None], [delete_user] returns [False], and neither writes. *)
Theorem unknown_id_is_no_error env or user_id user_update requesting_user st :
  get_user_by_id env user_id st = None ->
  update_user env or user_id user_update requesting_user st = (Ok None, st)
  /\ delete_user env user_id requesting_user st = (Ok false, st).
Proof.
  intros Hnone. split.
  - unfold update_user. by rewrite (locate_None _ _ 0 Hnone).
  - unfold delete_user. unfold get_user_by_id in Hnone. by rewrite Hnone.
Qed.

Lemma unknown_id_is_no_error_witness :
  get_user_by_id Sample.env "id-9" SampleMore.store = None
  /\ update_user Sample.env Sample.oracle "id-9" SampleMore.promote None
       SampleMore.store = (Ok None, SampleMore.store)
  /\ delete_user Sample.env "id-9" (Some Sample.alice) SampleMore.store
     = (Ok false, SampleMore.store).
Proof.
  split; [reflexivity|].
  split;
    apply (unknown_id_is_no_error Sample.env Sample.oracle "id-9"
             SampleMore.promote _ SampleMore.store eq_refl).
Defined.

(** X14. After a successful [delete_user] the id is gone, every other id is
    found as before, and the records that stay keep their order. *)
Theorem delete_then_lookup env user_id requesting_user st st' :
  delete_user env user_id requesting_user st = (Ok true, st') ->
  get_user_by_id env user_id st' = None
  /\ (forall other, other <> user_id ->
        get_user_by_id env other st' = get_user_by_id env other st)
  /\ get_users env st'
     = List.filter (fun u => negb (String.eqb (u_id u) user_id))
                   (get_users env st).
Proof.
  intros E. pose proof (delete_user_users _ _ _ _ _ E) as Husers.
  unfold get_user_by_id. rewrite Husers. split_and!.
  - apply find_filter_eq.
  - intros other Hne. by apply find_filter_ne.
  - done.
Qed.

Lemma delete_then_lookup_witness :
  exists st',
    delete_user Sample.env "id-4" (Some Sample.alice) SampleMore.store
    = (Ok true, st')
    /\ get_user_by_id Sample.env "id-4" st' = None
    /\ get_user_by_id Sample.env "id-2" st' = Some Sample.bob.
Proof.
  eexists. split; [reflexivity|].
  match goal with
  | |- get_user_by_id _ _ ?st' = None /\ _ =>
      destruct (delete_then_lookup Sample.env "id-4" (Some Sample.alice)
                  SampleMore.store st' eq_refl) as (Hgone & Hother & _)
  end.
  split; [exact Hgone|]. rewrite Hother by discriminate. reflexivity.
Defined.

(** X15. The bootstrap never raises an [Exception] and acts on an empty
    store only.  When it writes, the store holds exactly one record: the
    owner's, under the configured username, with [is_owner] and [is_admin]
    set; and a second run finds that record and changes nothing. *)
Theorem bootstrap_once env or st :
  match initialize_admin_user env or st with
  | (Ok _, st') =>
      st' = st
      \/ (get_users env st = []
          /\ (exists u,
                get_users env st' = [u]
                /\ u_username u = get_owner_username env
                /\ u_is_owner u = true /\ u_is_admin u = true)
          /\ initialize_admin_user env or st' = (Ok tt, st'))
  | (Raise e, st') => is_Exception e = false /\ st' = st
  end.
Proof.
  unfold initialize_admin_user at 1.
  destruct (get_users env st) as [|v users] eqn:Hempty; [|by left].
  fold (get_owner_username env).
  destruct (looks_like_bcrypt _).
  - match goal with
    | |- context [save_users env ([] ++ [?nu])%list] => set (new_user := nu)
    end.
    simpl. right. split; [done|].
    assert (Hfix : force_owner env new_user = new_user).
    { apply force_owner_fixed. by intros _. }
    assert (Husers : get_users env
                       (Some [dump_user (force_owner env new_user)])
                     = [new_user]).
    { simpl. by rewrite load_dump, force_owner_idemp, Hfix. }
    split; [by exists new_user|].
    unfold initialize_admin_user. by rewrite Husers.
  - match goal with
    | |- context [create_user env or ?uc None st] => set (user_create := uc)
    end.
    destruct (create_user env or user_create None st) as [[u|e] st'] eqn:E.
    + right. split; [done|].
      pose proof (create_user_users _ _ _ _ _ _ _ E) as Husers.
      rewrite Hempty in Husers. simpl in Husers.
      destruct (create_user_Ok _ _ _ _ _ _ _ E)
        as (_ & _ & Hn & Ho & Hok & _).
      simpl in Hn, Ho. rewrite is_owner_username_owner in Ho.
      split.
      * exists u. split_and!; try done.
        apply Hok. rewrite Hn. apply is_owner_username_owner.
      * unfold initialize_admin_user. by rewrite Husers.
    + apply create_user_Raise in E as ->.
      destruct (is_Exception e) eqn:He; [by left | done].
Qed.

(** X16. When the configured admin password already looks like a bcrypt
    hash, the bootstrap stores it as it is: [bcrypt] is not asked, and the
    one record of the new store has the configured text as its hash. *)
Theorem bootstrap_keeps_given_hash env or st password :
  get_users env st = [] ->
  ADMIN_PASSWORD env = Some password ->
  looks_like_bcrypt password = true ->
  exists st',
    initialize_admin_user env or st = (Ok tt, st')
    /\ map u_password_hash (get_users env st') = [password]
    /\ map u_id (get_users env st') = [uuid4 or].
Proof.
  intros Hempty Hpw Hlooks. unfold initialize_admin_user.
  rewrite Hempty, Hpw.
  assert (Htruthy : Py.truthy (Some password) = true).
  { destruct password; [discriminate Hlooks | reflexivity]. }
  rewrite Htruthy. cbn [Py.or_else]. rewrite Hlooks.
  match goal with
  | |- context [save_users env ([] ++ [?nu])%list] => set (new_user := nu)
  end.
  exists (save_users env [new_user]).2. split; [reflexivity|].
  unfold save_users. cbn [snd]. rewrite get_users_saved. cbn [map].
  by rewrite force_owner_password, force_owner_id.
Qed.

Lemma bootstrap_keeps_given_hash_witness :
  exists st',
    initialize_admin_user SampleMore.env_hashed Sample.oracle None
    = (Ok tt, st')
    /\ map u_password_hash (get_users SampleMore.env_hashed st')
       = ["$2b$12$abcdefghijklmnopqrstuv"].
Proof.
  destruct (bootstrap_keeps_given_hash SampleMore.env_hashed Sample.oracle
              None "$2b$12$abcdefghijklmnopqrstuv" eq_refl eq_refl eq_refl)
    as (st' & Hrun & Hhash & _).
  exists st'. split; [exact Hrun | exact Hhash].
Defined.

End UsersExtras.

(** * Properties of the user management endpoints *)

Module EndpointExtras.

Import Users Inv UsersFacts UsersAuth UsersMoreFacts Api.

(** X17. [update_user_info] lets a user patch their own record and passes no
    actor on, and [update_user] applies an [is_admin] patch to any record
    that is not the owner's.  So whoever is logged in, admin or not, sets
    the [is_admin] flag of their own account to the value they send. *)
Theorem update_user_info_sets_own_admin_flag
    env or user_id user_update current_user st user b :
  get_user_by_id env user_id st = Some user ->
  u_is_owner user = false ->
  u_id current_user = user_id ->
  up_is_admin user_update = Some b ->
  up_current_password user_update = None ->
  exists resp u' st',
    update_user_info env or user_id user_update current_user st = (Ok resp, st')
    /\ resp_is_admin resp = b
    /\ get_user_by_id env user_id st' = Some u'
    /\ u_is_admin u' = b.
Proof.
  intros Hfind Hflag Hself Hpatch Hpw.
  pose proof (not_owner_flag_not_owner_name _ _ _ _ Hfind Hflag) as Hname.
  destruct (locate_Some _ _ 0 _ Hfind) as (k & Hloc & _).
  assert (Hrun : exists u' st',
             update_user env or user_id user_update None st
             = (Ok (Some u'), st') /\ u_is_admin u' = b).
  { unfold update_user. rewrite Hloc, Hflag, Hpw.
    cbn [andb Py.truthy]. rewrite Hname, Hpatch. cbn [Py.or_else].
    unfold save_users.
    do 2 eexists. split; [reflexivity|].
    unfold force_owner. cbn [u_username]. by rewrite Hname. }
  destruct Hrun as (u' & st' & Hrun & Hadm).
  exists (user_response u'), u', st'. split_and!.
  - unfold update_user_info. rewrite Hself, String.eqb_refl, andb_false_r.
    unfold try_except, mbind, M_bind, mret, M_ret. by rewrite Hrun.
  - exact Hadm.
  - by apply update_user_found in Hrun.
  - exact Hadm.
Qed.

Lemma update_user_info_sets_own_admin_flag_witness :
  u_is_admin SampleMore.carol = false
  /\ exists resp u' st',
       update_user_info Sample.env Sample.oracle "id-4" SampleMore.promote
         SampleMore.carol SampleMore.store = (Ok resp, st')
       /\ resp_is_admin resp = true
       /\ get_user_by_id Sample.env "id-4" st' = Some u'
       /\ u_is_admin u' = true.
Proof.
  split; [reflexivity|].
  apply (update_user_info_sets_own_admin_flag Sample.env Sample.oracle "id-4"
           SampleMore.promote SampleMore.carol SampleMore.store
           SampleMore.carol true);
    reflexivity.
Defined.

(** X18. [remove_user] writes only when an admin deletes an account other
    than their own, and then the id is gone from the store.  In every other
    case the store is left as it was: a caller who is no admin gets 403, an
    admin who names their own id gets 400, an unknown id gets 404, and the
    [PermissionError] for the owner's account is not turned into an HTTP
    error. *)
Theorem remove_user_guards env user_id current_user st :
  match remove_user env user_id current_user st with
  | (Ok _, st') =>
      u_is_admin current_user = true
      /\ user_id <> u_id current_user
      /\ get_user_by_id env user_id st' = None
  | (Raise e, st') =>
      st' = st
      /\ (u_is_admin current_user = false -> e = HTTPException 403)
      /\ (u_is_admin current_user = true -> user_id = u_id current_user ->
          e = HTTPException 400)
      /\ (u_is_admin current_user = true -> user_id <> u_id current_user ->
          match get_user_by_id env user_id st with
          | None => e = HTTPException 404
          | Some user =>
              u_is_owner user = true
              /\ e = PermissionError "Cannot delete the owner account"
          end)
  end.
Proof.
  unfold remove_user.
  destruct (u_is_admin current_user) eqn:Hadm; simpl; [|by split_and!].
  destruct (String.eqb_spec user_id (u_id current_user)) as [Hself|Hother];
    [by split_and!|].
  unfold mbind, M_bind, mret, M_ret, raise.
  destruct (delete_user env user_id None st) as [r st'] eqn:E.
  destruct r as [[|]|e]; simpl.
  - split_and!; [done | done |].
    by apply delete_then_lookup_aux in E.
  - apply delete_user_unchanged in E as Hst; [subst st'|done].
    split_and!; try done. intros _ _.
    revert E. unfold delete_user, get_user_by_id.
    destruct (List.find _ (get_users env st)) as [u|] eqn:Hf; [|done].
    destruct (u_is_owner u); [done|].
    apply find_elem_of in Hf as [Hin Hid].
    assert (Hlt : List.length
                    (List.filter (fun v => negb (String.eqb (u_id v) user_id))
                                 (get_users env st))
                  < List.length (get_users env st)).
    { apply filter_length_lt with u; [done|]. simpl in Hid. by rewrite Hid. }
    apply Nat.ltb_lt in Hlt. by rewrite Hlt.
  - apply delete_user_unchanged in E as Hst; [subst st'|done].
    split_and!; try done. intros _ _.
    revert E. unfold delete_user, get_user_by_id.
    destruct (List.find _ (get_users env st)) as [u|]; [|done].
    destruct (u_is_owner u); [by intros [= <-]|].
    by destruct (_ <? _)%nat.
Qed.

(** X29. [add_user] writes only for an admin, and then the new record is
    found under the requested name.  Every failure leaves the store as it
    was and reaches the client as an HTTP error: 403 for a caller who is no
    admin, 400 for a username that is taken, 500 for any other [Exception]. *)
Theorem add_user_guards env or user_create current_user st :
  match add_user env or user_create current_user st with
  | (Ok resp, st') =>
      u_is_admin current_user = true
      /\ exists u,
           get_user_by_username env (uc_username user_create) st' = Some u
           /\ resp = user_response u
  | (Raise e, st') =>
      st' = st
      /\ (u_is_admin current_user = false -> e = HTTPException 403)
      /\ (u_is_admin current_user = true ->
          (exists u,
              get_user_by_username env (uc_username user_create) st = Some u) ->
          e = HTTPException 400)
      /\ (e = HTTPException 403 \/ e = HTTPException 400
          \/ e = HTTPException 500 \/ is_Exception e = false)
  end.
Proof.
  unfold add_user.
  destruct (u_is_admin current_user) eqn:Hadm; simpl;
    [|split_and!; try done; by left].
  unfold try_except, mbind, M_bind, mret, M_ret, raise.
  destruct (create_user env or user_create None st) as [[u|e] st'] eqn:E.
  - split; [done|]. exists u. split; [|done].
    by apply create_user_finds with or user_create None st.
  - pose proof (create_user_Raise _ _ _ _ _ _ _ E) as ->.
    assert (Hdup : (exists v,
                       get_user_by_username env (uc_username user_create) st
                       = Some v) ->
                   exists m, e = ValueError m).
    { intros [v Hv]. revert E. unfold create_user. rewrite Hv.
      intros [= <-]. by eexists. }
    destruct e; simpl; split_and!; try done; eauto;
      try (intros _ Hex; destruct (Hdup Hex) as [m Hm]; discriminate Hm).
Qed.

End EndpointExtras.

(** * More properties of the connection registry *)

Module RegistryMoreFacts.

Import Registry RegistryFacts Socket.

Lemma prune_not_registered ws self : ~ registered ws (prune {[ws]} self).
Proof.
  intros (g & s & Hg & Hin). unfold prune in Hg. simpl in Hg.
  rewrite lookup_fmap in Hg.
  destruct (active_connections self !! g) as [s0|]; [|done].
  injection Hg as <-. set_solver.
Qed.

Lemma prune_absent ws self :
  ~ registered ws self ->
  active_connections (prune {[ws]} self) = active_connections self.
Proof.
  intros Hno. unfold prune. simpl. apply map_eq. intros g.
  rewrite lookup_fmap.
  destruct (active_connections self !! g) as [s|] eqn:Hg; [|done].
  simpl. f_equal. apply set_eq. intros c.
  rewrite elem_of_difference, elem_of_singleton.
  split; [by intros [? _]|]. intros Hc. split; [done|]. intros ->.
  apply Hno. by exists g, s.
Qed.

Lemma deliver_abort message connections :
  forall disconnected net c e,
    c ∈ connections ->
    transport net c = Failing e ->
    is_Exception e = false ->
    exists e' net',
      deliver message connections disconnected net = (Raise e', net')
      /\ is_Exception e' = false.
Proof.
  induction connections as [|ws rest IH]; intros d net c e Hc Htr He;
    [inversion Hc|].
  cbn [deliver]. unfold send_text.
  destruct (transport net ws) as [|e0] eqn:Hws.
  - assert (Hrest : c ∈ rest).
    { inversion Hc; subst; [congruence | done]. }
    eapply IH; [exact Hrest | exact Htr | exact He].
  - destruct (is_Exception e0) eqn:He0.
    + assert (Hrest : c ∈ rest).
      { inversion Hc; subst; [congruence | done]. }
      destruct (IH (d ∪ {[ws]}) net c e Hrest Htr He) as (e' & net' & Hrun & He').
      exists e', net'. split; [|done]. by destruct e0.
    + exists e0, net. split; [|done]. by destruct e0.
Qed.

End RegistryMoreFacts.

Module RegistryExtras.

Import Registry RegistryFacts Socket RegistryMoreFacts.

(** X19. [disconnect] discards the connection from every group, whatever
    group is named in the call, and it can be repeated: a second call, or a
    call for a connection that is in no group, leaves the membership of
    every group as it is. *)
Theorem disconnect_from_every_group ws group self :
  has_all self ->
  exists self',
    disconnect ws group self = (Ok tt, self')
    /\ ~ registered ws self'
    /\ (forall group', disconnect ws group' self' = (Ok tt, self'))
    /\ (~ registered ws self ->
        active_connections self' = active_connections self).
Proof.
  intros Hall. exists (prune {[ws]} self). split_and!.
  - by apply disconnect_spec.
  - apply prune_not_registered.
  - intros group'. rewrite disconnect_spec by (by apply prune_has_all).
    rewrite prune_prune. do 2 f_equal. set_solver.
  - apply prune_absent.
Qed.

Lemma disconnect_from_every_group_witness :
  exists self',
    disconnect 2 "all" Sample.manager = (Ok tt, self')
    /\ active_connections self' !! "authenticated" = Some ({[ 2 ]} ∖ {[ 2 ]})
    /\ disconnect 2 "authenticated" self' = (Ok tt, self').
Proof.
  destruct (disconnect_from_every_group 2 "all" Sample.manager)
    as (self' & Hrun & _ & Hagain & _).
  { by eexists. }
  exists self'. split; [exact Hrun|]. split; [|apply Hagain].
  rewrite disconnect_spec in Hrun by (by eexists).
  injection Hrun as <-. reflexivity.
Defined.

(** X20. [connect] needs a group that exists: for any other name it raises
    [KeyError] and the registry is unchanged.  For a group that exists it
    adds the connection to that group and to no other, and a [disconnect]
    afterwards gives back the membership there was before, if the connection
    was in no group. *)
Theorem connect_then_disconnect ws group self :
  has_all self ->
  match connect ws group self with
  | (Raise e, self') =>
      e = KeyError group /\ self' = self
      /\ active_connections self !! group = None
  | (Ok _, self') =>
      (exists group_set,
          active_connections self !! group = Some group_set
          /\ active_connections self' !! group = Some (group_set ∪ {[ws]}))
      /\ (forall g, g <> group ->
            active_connections self' !! g = active_connections self !! g)
      /\ (~ registered ws self ->
          exists self'',
            disconnect ws group self' = (Ok tt, self'')
            /\ active_connections self'' = active_connections self)
  end.
Proof.
  intros Hall. unfold connect, getitem.
  destruct (active_connections self !! group) as [s|] eqn:Hg; [|done].
  split_and!.
  - exists s. split; [done|]. simpl. by rewrite lookup_insert_eq.
  - intros g Hne. simpl. by rewrite lookup_insert_ne.
  - intros Hno. eexists. split.
    + apply disconnect_spec. unfold has_all. simpl.
      destruct (decide (group = "all")) as [->|Hne].
      * rewrite lookup_insert_eq. by eexists.
      * by rewrite lookup_insert_ne.
    + unfold prune. simpl. apply map_eq. intros g. rewrite lookup_fmap.
      destruct (decide (g = group)) as [->|Hne].
      * rewrite lookup_insert_eq, Hg. simpl. f_equal.
        apply set_eq. intros c.
        rewrite elem_of_difference, elem_of_union, elem_of_singleton.
        split; [intros [[?|?] ?]; done|].
        intros Hc. split; [by left|]. intros ->. apply Hno. by exists group, s.
      * rewrite lookup_insert_ne by done.
        destruct (active_connections self !! g) as [s'|] eqn:Hg'; [|done].
        simpl. f_equal. apply set_eq. intros c.
        rewrite elem_of_difference, elem_of_singleton.
        split; [by intros [? _]|].
        intros Hc. split; [done|]. intros ->. apply Hno. by exists g, s'.
Qed.

Lemma connect_then_disconnect_witness :
  connect 7 "nowhere" init = (Raise (KeyError "nowhere"), init)
  /\ exists self',
       connect 7 "all" init = (Ok tt, self')
       /\ active_connections self' !! "all" = Some (∅ ∪ {[ 7 ]}).
Proof.
  pose proof (connect_then_disconnect 7 "all" init init_has_all) as Hok.
  split; [reflexivity|].
  destruct (connect 7 "all" init) as [[[]|e] self'] eqn:E.
  - exists self'. split; [reflexivity|].
    destruct Hok as ((s & Hs & Hs') & _). injection Hs as <-. exact Hs'.
  - destruct Hok as (_ & _ & Hnone). discriminate Hnone.
Defined.

(** X21. [broadcast], for any number of dead connections: when the
    transports of the group fail with [Exception]s only, it returns normally;
    each connection of the group whose transport delivers gets the message
    once and nobody else gets anything; the connections whose transport
    fails are discarded from every group, and if there is none the registry
    is unchanged. *)
Theorem broadcast_delivers_and_prunes message group self net group_set :
  active_connections self !! group = Some group_set ->
  has_all self ->
  (forall c e, c ∈ group_set -> transport net c = Failing e ->
               is_Exception e = true) ->
  exists self' net',
    broadcast message group self net = (Ok tt, self', net')
    /\ has_all self'
    /\ (forall c,
          frames net' c
          = if decide (c ∈ group_set /\ failing net c = false)
            then (frames net c ++ [message])%list else frames net c)
    /\ (forall g,
          active_connections self' !! g
          = (fun s => s ∖ filter (fun c => failing net c = true) group_set)
              <$> active_connections self !! g)
    /\ ((forall c, c ∈ group_set -> failing net c = false) -> self' = self).
Proof.
  intros Hgroup Hall Hexc.
  destruct (broadcast_spec message group self net group_set Hgroup Hall Hexc)
    as (net' & Hrun & _ & Hfr).
  eexists _, net'. split_and!; [exact Hrun | by apply prune_has_all | exact Hfr | |].
  - intros g. unfold prune. simpl. by rewrite lookup_fmap.
  - intros Hopen.
    assert (Hnone : filter (fun c => failing net c = true) group_set = ∅).
    { apply set_eq. intros c. rewrite elem_of_filter. split; [|set_solver].
      intros [Hf Hc]. rewrite (Hopen c Hc) in Hf. discriminate Hf. }
    rewrite Hnone. apply prune_empty.
Qed.

Lemma broadcast_delivers_and_prunes_witness :
  exists net',
    broadcast "hello" "all" Sample.manager SampleMore.open_net
    = (Ok tt, Sample.manager, net')
    /\ frames net' 1 = ["hello"] /\ frames net' 9 = [].
Proof.
  destruct (broadcast_delivers_and_prunes "hello" "all" Sample.manager
              SampleMore.open_net {[ 1; 2; 3 ]})
    as (self' & net' & Hrun & _ & Hfr & _ & Hsame).
  - reflexivity.
  - by eexists.
  - intros c e _ Hc. discriminate Hc.
  - rewrite Hsame in Hrun by reflexivity.
    exists net'. split; [exact Hrun|]. split.
    + rewrite Hfr, decide_True; [reflexivity|]. split; [set_solver | reflexivity].
    + rewrite Hfr, decide_False; [reflexivity|]. set_solver.
Defined.

(** X22. An exception of a transport that is no [Exception] (a cancelled
    task) is not caught: [broadcast] raises, and the clean-up loop does not
    run, so the registry is the one before the call, also for connections
    that had already failed in this round. *)
Theorem broadcast_aborts_without_cleanup message group self net group_set c e :
  active_connections self !! group = Some group_set ->
  c ∈ group_set ->
  transport net c = Failing e ->
  is_Exception e = false ->
  exists e' net',
    broadcast message group self net = (Raise e', self, net')
    /\ is_Exception e' = false.
Proof.
  intros Hgroup Hc Htr He. unfold broadcast. rewrite Hgroup.
  destruct (deliver_abort message (elements group_set) ∅ net c e)
    as (e' & net' & Hrun & He'); [by apply elem_of_elements | done | done |].
  exists e', net'. by rewrite Hrun.
Qed.

Lemma broadcast_aborts_without_cleanup_witness :
  exists net',
    broadcast "hello" "all" Sample.manager SampleMore.cancelled_net
    = (Raise CancelledError, Sample.manager, net').
Proof.
  destruct (broadcast_aborts_without_cleanup "hello" "all" Sample.manager
              SampleMore.cancelled_net {[ 1; 2; 3 ]} 3 CancelledError)
    as (e' & net' & Hrun & He').
  - reflexivity.
  - set_solver.
  - reflexivity.
  - reflexivity.
  - exists net'. destruct e'; try discriminate He'. exact Hrun.
Defined.

(** X23. [send_personal_message] lets no [Exception] of the transport out:
    when the send fails, the connection is discarded from every group; when
    it delivers, the registry is untouched and the frame is the last one the
    connection has. *)
Theorem send_personal_message_isolated message ws self net :
  has_all self ->
  match transport net ws with
  | Open =>
      exists net',
        send_personal_message message ws self net = (Ok tt, self, net')
        /\ frames net' ws = (frames net ws ++ [message])%list
  | Failing e =>
      if is_Exception e
      then send_personal_message message ws self net
           = (Ok tt, prune {[ws]} self, net)
           /\ ~ registered ws (prune {[ws]} self)
      else send_personal_message message ws self net = (Raise e, self, net)
  end.
Proof.
  intros Hall. unfold send_personal_message, send_text.
  destruct (transport net ws) as [|e].
  - eexists. split; [reflexivity|].
    unfold frames at 1. simpl. by rewrite lookup_insert_eq.
  - destruct (is_Exception e); [|done].
    rewrite disconnect_spec by done. split; [done|]. apply prune_not_registered.
Qed.

Lemma send_personal_message_isolated_witness :
  send_personal_message "hello" 2 Sample.manager Sample.net
  = (Ok tt, prune {[ 2 ]} Sample.manager, Sample.net).
Proof.
  pose proof (send_personal_message_isolated "hello" 2 Sample.manager
                Sample.net ltac:(by eexists)) as H.
  exact (proj1 H).
Defined.

End RegistryExtras.

(** * Properties of the WebSocket endpoint *)

Module SocketFacts.

Import Registry RegistryFacts Api Socket RegistryMoreFacts.

Lemma connect_init ws : connect ws "all" init = (Ok tt, connected ws).
Proof. reflexivity. Qed.

Lemma connected_has_all ws : has_all (connected ws).
Proof. unfold has_all, connected. simpl. rewrite lookup_insert_eq. by eexists. Qed.

Lemma leave_spec ws how manager net :
  has_all manager -> leave ws how manager net = (how, prune {[ws]} manager, net).
Proof. intros Hall. unfold leave. by rewrite disconnect_spec. Qed.

Section Endpoint.

Variable dumps : Json -> string.

(** The loop, whatever the transport does: while it waits the registry is
    untouched, and when it ends the connection has been discarded. *)
Lemma serve_registry ws manager :
  has_all manager ->
  forall incoming net,
    match serve dumps ws incoming manager net with
    | (Waiting, manager', _) => manager' = manager
    | (Returned, manager', _) => manager' = prune {[ws]} manager
    | (Raised e, manager', _) =>
        manager' = prune {[ws]} manager /\ is_Exception e = false
    end.
Proof.
  intros Hall. induction incoming as [|i rest IH]; intros net; [done|].
  assert (Hsend : forall sent,
             match after_send ws sent manager (serve dumps ws rest manager) with
             | (Waiting, manager', _) => manager' = manager
             | (Returned, manager', _) => manager' = prune {[ws]} manager
             | (Raised e, manager', _) =>
                 manager' = prune {[ws]} manager /\ is_Exception e = false
             end).
  { intros [[[]|e] net1]; unfold after_send; [apply IH|].
    destruct (is_Exception e) eqn:He; by rewrite leave_spec. }
  destruct i as [data now|now|e]; cbn [serve].
  - destruct (String.eqb data "ping"); [apply Hsend|].
    destruct (String.eqb data "subscribe"); [apply Hsend | apply IH].
  - apply Hsend.
  - destruct (is_Exception e) eqn:He; by rewrite leave_spec.
Qed.

(** The loop on a transport that delivers to the connection. *)
Lemma serve_open ws manager :
  has_all manager ->
  forall incoming net,
    transport net ws = Open ->
    exists net',
      serve dumps ws incoming manager net
      = (ending incoming,
         match ending incoming with
         | Waiting => manager
         | _ => prune {[ws]} manager
         end,
         net')
      /\ transport net' = transport net
      /\ frames net' ws
         = (frames net ws ++ concat (map (reply dumps) (answered incoming)))%list
      /\ forall c, c <> ws -> frames net' c = frames net c.
Proof.
  intros Hall. induction incoming as [|i rest IH]; intros net Hopen.
  - exists net. split_and!; try done. simpl. by rewrite app_nil_r.
  - assert (Hsend : forall message,
               exists net',
                 after_send ws (send_text ws message net) manager
                   (serve dumps ws rest manager)
                 = (ending rest,
                    match ending rest with
                    | Waiting => manager
                    | _ => prune {[ws]} manager
                    end,
                    net')
                 /\ transport net' = transport net
                 /\ frames net' ws
                    = (frames net ws
                         ++ message :: concat (map (reply dumps) (answered rest)))%list
                 /\ forall c, c <> ws -> frames net' c = frames net c).
    { intros message.
      pose proof (frames_send_open ws message net) as Hfr.
      unfold send_text in Hfr |- *. rewrite Hopen in Hfr |- *.
      set (net1 := {| transport := transport net; inbox := _ |}) in *.
      destruct (IH net1 Hopen) as (net' & Hrun & Htr & Hmine & Hothers).
      exists net'. unfold after_send. split_and!; [exact Hrun | exact Htr | |].
      - rewrite Hmine. cbn [snd] in Hfr. rewrite (Hfr ws eq_refl).
        rewrite decide_True by done. by rewrite <- app_assoc.
      - intros c Hc. rewrite (Hothers c Hc). cbn [snd] in Hfr.
        rewrite (Hfr c eq_refl). by rewrite decide_False. }
    destruct i as [data now|now|e]; cbn [serve ending answered].
    + destruct (String.eqb data "ping") eqn:Hping.
      { destruct (Hsend "pong") as (net' & Hrun & Htr & Hmine & Hothers).
        exists net'. split_and!; try done.
        cbn [map concat reply]. by rewrite Hping. }
      destruct (String.eqb data "subscribe") eqn:Hsub.
      { destruct (Hsend (dumps (frame "subscribed" now [])))
          as (net' & Hrun & Htr & Hmine & Hothers).
        exists net'. split_and!; try done.
        cbn [map concat reply]. by rewrite Hping, Hsub. }
      destruct (IH net Hopen) as (net' & Hrun & Htr & Hmine & Hothers).
      exists net'. split_and!; try done.
      cbn [map concat reply]. by rewrite Hping, Hsub.
    + destruct (Hsend (dumps (frame "keepalive" now [])))
        as (net' & Hrun & Htr & Hmine & Hothers).
      exists net'. split_and!; try done.
    + exists net. rewrite app_nil_r.
      destruct (is_Exception e); rewrite leave_spec by done; by split_and!.
Qed.

End Endpoint.

End SocketFacts.

Module SocketExtras.

Import Registry RegistryFacts Api Socket RegistryMoreFacts SocketFacts.

(** X24. The registry that [websocket_endpoint] fills is the one it creates
    for itself: at every moment no connection other than its own is in any
    of its groups.  While the endpoint waits for the client the connection
    is registered; when the endpoint returns, the connection has been
    discarded from every group; and what it raises is either the failure of
    [accept] or no [Exception]. *)
Theorem endpoint_registry dumps ws accept now incoming net :
  match websocket_endpoint dumps ws accept now incoming net with
  | (outcome, manager, _) =>
      (forall group group_set,
          active_connections manager !! group = Some group_set ->
          group_set ⊆ {[ws]})
      /\ match outcome with
         | Waiting => manager = connected ws
         | Returned => ~ registered ws manager
         | Raised e => accept = Raise e \/ is_Exception e = false
         end
  end.
Proof.
  assert (Hinit : forall group group_set,
             active_connections init !! group = Some group_set ->
             group_set ⊆ {[ws]}).
  { intros g s Hg. unfold init in Hg. simpl in Hg.
    apply lookup_insert_Some in Hg as [[_ <-]|[_ Hg]]; [set_solver|].
    apply lookup_singleton_Some in Hg as [_ <-]. set_solver. }
  assert (Hconn : forall group group_set,
             active_connections (connected ws) !! group = Some group_set ->
             group_set ⊆ {[ws]}).
  { intros g s Hg. unfold connected in Hg. simpl in Hg.
    apply lookup_insert_Some in Hg as [[_ <-]|[_ Hg]]; [set_solver|].
    by apply Hinit in Hg. }
  assert (Hgone : forall group group_set,
             active_connections (prune {[ws]} (connected ws)) !! group
             = Some group_set ->
             group_set ⊆ {[ws]}).
  { intros g s Hg. unfold prune in Hg. simpl in Hg. rewrite lookup_fmap in Hg.
    destruct (_ !! g) as [s0|] eqn:Hs0; [|done]. injection Hg as <-.
    apply Hconn in Hs0. set_solver. }
  unfold websocket_endpoint. destruct accept as [[]|e]; [|by split; [|left]].
  rewrite connect_init. unfold send_json, send_text.
  destruct (transport net ws) as [|e] eqn:Htr.
  - match goal with
    | |- context [serve dumps ws incoming (connected ws) ?n] => set (net1 := n)
    end.
    pose proof (serve_registry dumps ws (connected ws) (connected_has_all ws)
                  incoming net1) as H.
    destruct (serve dumps ws incoming (connected ws) net1) as [[out m] net'].
    destruct out as [| e |].
    + subst m. split; [exact Hgone | apply prune_not_registered].
    + destruct H as [-> He]. split; [exact Hgone | by right].
    + subst m. by split.
  - destruct (is_Exception e) eqn:He.
    + rewrite disconnect_spec by apply connected_has_all.
      split; [exact Hgone | apply prune_not_registered].
    + split; [exact Hconn | by right].
Qed.

(** X25. The protocol of the endpoint on a transport that delivers: after
    the confirmation frame, a "ping" is answered with the text "pong", a
    "subscribe" with a [subscribed] frame, an idle timeout with a
    [keepalive] frame, and any other text with nothing; nothing is sent to
    another connection.  Timeouts and unknown texts do not end the loop: it
    ends at the first failure of [receive_text] and not before, and until
    then the connection stays registered. *)
Theorem endpoint_protocol dumps ws now incoming net :
  transport net ws = Open ->
  exists manager net',
    websocket_endpoint dumps ws (Ok tt) now incoming net
    = (ending incoming, manager, net')
    /\ frames net' ws
       = (frames net ws
            ++ dumps (frame "connection_established" now
                        [("message", JStr "WebSocket connected successfully")])
            :: concat (map (reply dumps) (answered incoming)))%list
    /\ (forall c, c <> ws -> frames net' c = frames net c)
    /\ (ending incoming = Waiting -> manager = connected ws)
    /\ (ending incoming <> Waiting -> ~ registered ws manager).
Proof.
  intros Hopen. unfold websocket_endpoint. rewrite connect_init.
  pose proof (frames_send_open ws
                (dumps (frame "connection_established" now
                          [("message", JStr "WebSocket connected successfully")]))
                net) as Hfr.
  unfold send_json, send_text in *. rewrite Hopen in Hfr |- *.
  set (net1 := {| transport := transport net; inbox := _ |}) in *.
  destruct (serve_open dumps ws (connected ws) (connected_has_all ws)
              incoming net1 Hopen) as (net' & Hrun & _ & Hmine & Hothers).
  eexists _, net'. split_and!; [exact Hrun | | | |].
  - rewrite Hmine. cbn [snd] in Hfr. rewrite (Hfr ws eq_refl).
    rewrite decide_True by done. by rewrite <- app_assoc.
  - intros c Hc. rewrite (Hothers c Hc). cbn [snd] in Hfr.
    rewrite (Hfr c eq_refl). by rewrite decide_False.
  - by intros ->.
  - intros Hend. destruct (ending incoming); try done; apply prune_not_registered.
Qed.

Lemma endpoint_protocol_witness :
  exists manager net',
    websocket_endpoint SampleMore.dumps 5 (Ok tt) "t0"
      [Received "ping" "t1"; TimedOut "t2"; Received "hello" "t3";
       Received "subscribe" "t4"]
      SampleMore.open_net
    = (Waiting, manager, net')
    /\ frames net' 5
       = ["{connection_established}"; "pong"; "{keepalive}"; "{subscribed}"]
    /\ manager = connected 5.
Proof.
  destruct (endpoint_protocol SampleMore.dumps 5 "t0"
              [Received "ping" "t1"; TimedOut "t2"; Received "hello" "t3";
               Received "subscribe" "t4"]
              SampleMore.open_net eq_refl)
    as (manager & net' & Hrun & Hmine & _ & Hwait & _).
  exists manager, net'. split; [exact Hrun|]. split; [exact Hmine|].
  apply Hwait. reflexivity.
Defined.

End SocketExtras.

(** * More properties of the handlers *)

Module HandlerExtras.

Import Users Api ApiFacts Members.

(** X26. What the two front-switch handlers do with a request they cannot
    use.  [switch_front] raises 400 for a "members" value that is no list,
    but inside its own [try], so the client gets 500; no [Exception] leaves
    it with another status.  A body without the key "members" is taken as
    the empty list.  [switch_single_front] answers a missing or empty
    "member_id" with 400.  In the refusals the collaborators are not called
    and nothing is broadcast. *)
Theorem switch_validation
    (Ext : Type) (set_front : list Json -> M Ext Json)
    (get_fronters : M Ext Json) :
  (forall request_json user w,
      match switch_front Ext set_front get_fronters request_json user w with
      | (Raise e, _) => e = HTTPException 500 \/ is_Exception e = false
      | (Ok _, _) => True
      end)
  /\ (forall items v user w,
        assoc "members" items = Some v ->
        (forall ids, v <> JList ids) ->
        switch_front Ext set_front get_fronters (Ok (JDict items)) user w
        = (Raise (HTTPException 500), w))
  /\ (forall items user w,
        assoc "members" items = None ->
        switch_front Ext set_front get_fronters (Ok (JDict items)) user w
        = switch_front Ext set_front get_fronters
            (Ok (JDict [("members", JList [])])) user w)
  /\ (forall items user w,
        truthy (Py.or_else (assoc "member_id" items) JNull) = false ->
        switch_single_front Ext set_front get_fronters (Ok (JDict items)) user w
        = (Raise (HTTPException 400), w)).
Proof.
  split_and!.
  - intros request_json user [x evs]. unfold switch_front.
    run_handler; try done; try (by left);
      match goal with
      | H : is_Exception ?e = _ |- _ => destruct e; try done; by right
      end.
  - intros items v user [x evs] Hv Hnolist. unfold switch_front.
    unfold try_except, mbind, M_bind, lift, dict_get. rewrite Hv. simpl.
    destruct v; try done. by destruct (Hnolist items0).
  - intros items user w Hnone. unfold switch_front.
    unfold try_except, mbind, M_bind, lift, dict_get. by rewrite Hnone.
  - intros items user [x evs] Hfalsy. unfold switch_single_front.
    unfold try_except, mbind, M_bind, lift, dict_get, raise. simpl.
    by rewrite Hfalsy.
Qed.

(** X27. [set_member_status_endpoint] hands a status to the storage only
    for an admin and only when the text is non-empty and [len] of it is at
    most 100.  A caller who is no admin gets 403, a missing or empty text
    400, a text of more than 100 characters 400, and a text that has no
    length 500; in all of these the storage is not called. *)
Theorem status_validation
    (Ext : Type) (set_member_status : string -> Json -> Json -> M Ext Json)
    member_identifier status_data user w :
  let text := Py.or_else (assoc "text" status_data) JNull in
  match set_member_status_endpoint Ext set_member_status
          member_identifier status_data user w with
  | (Ok _, _) =>
      u_is_admin user = true /\ truthy text = true
      /\ exists n, len text = Ok n /\ n <= 100
  | (Raise e, w') =>
      (u_is_admin user = false -> e = HTTPException 403 /\ w' = w)
      /\ (u_is_admin user = true -> truthy text = false ->
          e = HTTPException 400 /\ w' = w)
      /\ (u_is_admin user = true -> truthy text = true ->
          match len text with
          | Ok n => 100 < n -> e = HTTPException 400 /\ w' = w
          | Raise _ => e = HTTPException 500 /\ w' = w
          end)
  end.
Proof.
  intros text. subst text. unfold set_member_status_endpoint.
  destruct w as [x evs].
  destruct (u_is_admin user); simpl; [|by split_and!].
  unfold try_except, mbind, M_bind, mret, M_ret, raise, lift, call. simpl.
  set (text := Py.or_else (assoc "text" status_data) JNull).
  destruct (truthy text) eqn:Htruthy; simpl; [|by split_and!].
  assert (Hlen : (exists n, len text = Ok n)
                 \/ len text = Raise (TypeError "len")).
  { destruct text; simpl; eauto. }
  destruct Hlen as [[n Hlen]|Hlen]; rewrite Hlen; simpl; [|by split_and!].
  destruct (100 <? n)%nat eqn:Hn; simpl; [by split_and!|].
  apply Nat.ltb_ge in Hn.
  destruct (set_member_status _ _ _ x) as [[status|e] x']; simpl.
  - split_and!; [done | done |]. by exists n.
  - destruct (is_Exception e); [destruct (is_HTTPException e)|];
      simpl; (split_and!; [done | done | intros _ _ ?; lia]).
Qed.

Section Detail.

Variable Ext : Type.
Variable get_members : M Ext (list Json).
Variable enrich_members_with_tags : list Json -> M Ext (list Json).
Variable enrich_members_with_status : list Json -> M Ext (list Json).

Lemma scan_unknown member_id members x :
  Forall well_formed members ->
  (forall m, m ∈ members -> ~ answers_to member_id m) ->
  scan Ext enrich_members_with_tags enrich_members_with_status
    member_id members x
  = (Raise (HTTPException 404), x).
Proof.
  induction 1 as [|m members Hm _ IH]; intros Hno; [done|].
  cbn [scan]. destruct Hm as (id_value & name & Hid & Hname).
  unfold mbind, M_bind, lift. rewrite Hid.
  destruct (eq_str id_value member_id) eqn:Heq.
  { destruct (Hno m ltac:(left)). exists id_value, name. by split_and!; [..|left]. }
  rewrite Hname. simpl.
  destruct (String.eqb_spec (Py.lower name) (Py.lower member_id)) as [Hlow|_].
  { destruct (Hno m ltac:(left)). exists id_value, name. by split_and!; [..|right]. }
  apply IH. intros m' Hm'. apply Hno. by right.
Qed.

End Detail.

(** X28. [member_detail] never answers 404.  The 404 it raises for a member
    that is not found is raised inside its own [try] and comes out as 500:
    no [Exception] leaves the handler with another status, and for a
    well-formed member list in which no record answers to the id or name
    the result is 500. *)
Theorem member_detail_never_404
    (Ext : Type) (get_members : M Ext (list Json))
    (enrich_members_with_tags enrich_members_with_status
       : list Json -> M Ext (list Json))
    member_id x :
  match member_detail Ext get_members enrich_members_with_tags
          enrich_members_with_status member_id x with
  | (Raise e, _) => e = HTTPException 500 \/ is_Exception e = false
  | (Ok _, _) => True
  end
  /\ forall members x',
       get_members x = (Ok members, x') ->
       Forall well_formed members ->
       (forall m, m ∈ members -> ~ answers_to member_id m) ->
       member_detail Ext get_members enrich_members_with_tags
         enrich_members_with_status member_id x
       = (Raise (HTTPException 500), x').
Proof.
  split.
  - unfold member_detail.
    match goal with
    | |- context [try_except ?b _ _ x] => set (body := b)
    end.
    unfold try_except. destruct (body x) as [[v|e] x']; [done|].
    destruct (is_Exception e) eqn:He; simpl; [by left | by right].
  - intros members x' Hget Hwf Hno. unfold member_detail, try_except.
    unfold mbind at 1. unfold M_bind at 1. rewrite Hget.
    by rewrite scan_unknown.
Qed.

End HandlerExtras.
